(** * AsyncEvalClient: a shallow embedding of [Demos/Evaluation/scripts/eval_utils.py]

    The client is a thin asynchronous facade over the OpenAI / Azure OpenAI
    evaluation API.  Every method awaits calls on [self.client], prints a
    diagnostic and either returns a value or lets an exception escape.

    The embedding keeps exactly those effects:
    - every awaited SDK call, every [open]/[close] of a local file and every
      [print] is recorded, in program order, in a trace of [event]s;
    - a method either returns ([Ok v]) or raises ([Raise e]);
    - [except Exception] catches the exceptions that are instances of
      [Exception] and lets the others ([KeyboardInterrupt],
      [asyncio.CancelledError], ...) through.

    The remote service and the local file system are outside the program: they
    are a [World] of responses over which every statement quantifies. *)

From Stdlib Require Import ZArith.
From stdpp Require Import gmap strings list fin_maps.

Local Open Scope string_scope.
Local Open Scope list_scope.

(** ** Python values, exceptions, results *)

(** What [to_dict()] of an SDK response can hold. *)
#[local] Set Warnings "-register-all".
Inductive value :=
| VNone
| VBool (b : bool)
| VInt (n : Z)
| VStr (s : string)
| VList (items : list value)
| VDict (items : list (string * value)).
#[local] Set Warnings "register-all".

(** A raised Python object.  [exn_is_Exception] is [isinstance(e, Exception)];
    [exn_str] is [str(e)]. *)
Record PyExn := mkExn {
  exn_is_Exception : bool;
  exn_str : string
}.

Inductive result (A : Type) :=
| Ok (a : A)
| Raise (e : PyExn).
Arguments Ok {A} a.
Arguments Raise {A} e.

(** ** SDK objects *)

(** An entry of [client.files.list().data], and the response of
    [client.files.create]. *)
Record FileObject := mkFile {
  file_id : string;
  file_filename : string;
  file_purpose : string
}.

(** The object returned by [open(path, 'rb')]. *)
Record BufferedReader := mkReader {
  reader_name : string;
  reader_bytes : list Byte.byte
}.

(** A pydantic response model: all the code uses is [to_dict()]. *)
Record BaseModel := mkModel {
  to_dict : gmap string value
}.

(** A page of results: all the code uses is [.data]. *)
Record Page (A : Type) := mkPage {
  data : list A
}.
Arguments mkPage {A} data.
Arguments data {A} p.

(** ** Events *)

(** The calls awaited on [self.client]. *)
Inductive remote_call :=
| files_list_call
| files_create_call (file : BufferedReader) (purpose : string)
| evals_create_call (name : string) (data_source_config testing_criteria : value)
| evals_list_call
| evals_retrieve_call (eval_id : string)
| evals_delete_call (eval_id : string)
| runs_create_call (eval_id name : string) (metadata data_source : value)
| runs_list_call (eval_id : string)
| runs_retrieve_call (eval_id run_id : string)
| runs_cancel_call (eval_id run_id : string)
| runs_delete_call (eval_id run_id : string)
| output_items_list_call (eval_id run_id : string)
| output_items_retrieve_call (eval_id run_id output_item_id : string).

(** The pieces of an f-string handed to [print]: literal text, an
    interpolated value, an interpolated exception. *)
Inductive fpart :=
| Lit (s : string)
| Fmt (v : value)
| FmtExn (e : PyExn).

Inductive event :=
| Remote (c : remote_call)
| Open (path mode : string)
| Close (f : BufferedReader)
| Print (msg : list fpart).

Definition is_remote (ev : event) : bool :=
  match ev with
  | Remote _ => true
  | _ => false
  end.

Definition is_files_create (ev : event) : bool :=
  match ev with
  | Remote (files_create_call _ _) => true
  | _ => false
  end.

(** The remote calls of a trace, in order. *)
Definition remote_calls (t : list event) : list event := filter (fun ev => is_remote ev = true) t.

(** The [client.files.create] calls of a trace, in order, and their number. *)
Definition creates (t : list event) : list event :=
  filter (fun ev => is_files_create ev = true) t.

Definition create_calls (t : list event) : nat := length (creates t).

(** ** The world the client talks to *)

(** [self.client]: what each awaited call answers. *)
Record AsyncOpenAI := mkClient {
  files_list : result (Page FileObject);
  files_create : BufferedReader -> string -> result FileObject;
  evals_create : string -> value -> value -> result BaseModel;
  evals_list : result (Page BaseModel);
  evals_retrieve : string -> result BaseModel;
  evals_delete : string -> result BaseModel;
  runs_create : string -> string -> value -> value -> result BaseModel;
  runs_list : string -> result (Page BaseModel);
  runs_retrieve : string -> string -> result BaseModel;
  runs_cancel : string -> string -> result BaseModel;
  runs_delete : string -> string -> result BaseModel;
  output_items_list : string -> string -> result (Page BaseModel);
  output_items_retrieve : string -> string -> string -> result BaseModel
}.

Record World := mkWorld {
  client : AsyncOpenAI;
  (** the builtin [open(path, mode)] on the local file system *)
  builtin_open : string -> string -> result BufferedReader;
  (** the module-level [OAI_API_TYPE] *)
  OAI_API_TYPE : string
}.

(** ** The effect monad: read the world, log events, return or raise *)

Definition M (A : Type) : Type := World -> list event * result A.

Definition ret {A} (a : A) : M A := fun _ => ([], Ok a).

Definition bind {A B} (m : M A) (k : A -> M B) : M B := fun w =>
  match m w with
  | (t, Ok a) => let '(t', r) := k a w in (t ++ t', r)
  | (t, Raise e) => (t, Raise e)
  end.

Notation "x <- m ;; k" := (bind m (fun x => k))
  (at level 100, m at next level, right associativity).
Notation "m ;;; k" := (bind m (fun _ => k))
  (at level 100, right associativity).

(** [try: body / except Exception as e: handler e]. *)
Definition try_except {A} (body : M A) (handler : PyExn -> M A) : M A := fun w =>
  match body w with
  | (t, Ok a) => (t, Ok a)
  | (t, Raise e) =>
      if exn_is_Exception e
      then let '(t', r) := handler e w in (t ++ t', r)
      else (t, Raise e)
  end.

(** [await self.client.<call>]. *)
Definition await {A} (c : remote_call) (answer : AsyncOpenAI -> result A) : M A :=
  fun w => ([Remote c], answer (client w)).

Definition print (msg : list fpart) : M unit := fun _ => ([Print msg], Ok tt).

(** [with open(path, mode) as f: body f]: the file is closed when the block
    is left, whether [body] returns or raises. *)
Definition with_open {A} (path mode : string) (body : BufferedReader -> M A) : M A := fun w =>
  match builtin_open w path mode with
  | Ok f => let '(t, r) := body f w in (Open path mode :: t ++ [Close f], r)
  | Raise e => ([Open path mode], Raise e)
  end.

(** ['OpenAI' if OAI_API_TYPE == 'openai' else 'Azure']. *)
Definition provider_name (w : World) : string :=
  if String.eqb (OAI_API_TYPE w) "openai" then "OpenAI" else "Azure".

Definition provider : M string := fun w => ([], Ok (provider_name w)).

(** ** AsyncEvalClient *)

(** The [for file in files] loop of [upload_file]: [Some id] is the early
    [return file.id], [None] is falling off the end of the loop. *)
Fixpoint upload_file_scan (files : list FileObject) (file_name : string) : M (option string) :=
  match files with
  | [] => ret None
  | file :: rest =>
      if String.eqb (file_filename file) file_name then
        print [Lit "File '"; Fmt (VStr file_name);
               Lit "' already exists. Returning existing file ID."] ;;;
        ret (Some (file_id file))
      else upload_file_scan rest file_name
  end.

(** [upload_file(self, file_name, file_path, purpose="evals")]; [purpose] is
    [None] when the caller leaves the argument out. *)
Definition upload_file (file_name file_path : string) (purpose : option string) : M string :=
  let purpose := default "evals" purpose in
  list_response <- await files_list_call files_list ;;
  let files := data list_response in
  found <- upload_file_scan files file_name ;;
  match found with
  | Some existing => ret existing
  | None =>
      try_except
        (response <- with_open file_path "rb" (fun f =>
             await (files_create_call f purpose) (fun c => files_create c f purpose)) ;;
         p <- provider ;;
         print [Lit "File uploaded successfully to "; Fmt (VStr p); Lit "."] ;;;
         ret (file_id response))
        (fun e =>
         p <- provider ;;
         print [Lit "Failed to upload file to "; Fmt (VStr p); Lit ": "; FmtExn e] ;;;
         ret "")
  end.

Definition raise {A} (e : PyExn) : M A := fun _ => ([], Raise e).

(** [KeyError(key)]: an [Exception]; its [str] is the [repr] of the key. *)
Definition KeyError (key : string) : PyExn := mkExn true ("'" +:+ key +:+ "'").

(** [d[key]] on a dict. *)
Definition subscript (d : gmap string value) (key : string) : M value :=
  match d !! key with
  | Some v => ret v
  | None => raise (KeyError key)
  end.

(** [create_eval_sdk(self, name, data_source_config, testing_criteria)]. *)
Definition create_eval_sdk (name : string) (data_source_config testing_criteria : value) : M value :=
  try_except
    (response <- await (evals_create_call name data_source_config testing_criteria)
                       (fun c => evals_create c name data_source_config testing_criteria) ;;
     eval_id <- subscript (to_dict response) "id" ;;
     print [Lit "Evaluation created successfully with ID: "; Fmt eval_id] ;;;
     ret eval_id)
    (fun e =>
     print [Lit "Failed to create evaluation. Error: "; FmtExn e] ;;;
     ret VNone).

(** [get_eval_list_sdk(self)]. *)
Definition get_eval_list_sdk : M (list BaseModel) :=
  response <- await evals_list_call evals_list ;;
  print [Lit "Fetched evaluations successfully."] ;;;
  ret (data response).

(** [get_eval_sdk(self, eval_id)]. *)
Definition get_eval_sdk (eval_id : string) : M (gmap string value) :=
  try_except
    (response <- await (evals_retrieve_call eval_id) (fun c => evals_retrieve c eval_id) ;;
     ret (to_dict response))
    (fun e =>
     print [Lit "Failed to fetch evaluation details for ID: "; Fmt (VStr eval_id);
            Lit ". Error: "; FmtExn e] ;;;
     ret {[ "name" := VStr ("Unknown Evaluation (" +:+ eval_id +:+ ")") ]}).

(** [delete_eval_sdk(self, eval_id)]. *)
Definition delete_eval_sdk (eval_id : string) : M bool :=
  try_except
    (await (evals_delete_call eval_id) (fun c => evals_delete c eval_id) ;;;
     print [Lit "Evaluation with ID "; Fmt (VStr eval_id); Lit " deleted successfully."] ;;;
     ret true)
    (fun e =>
     print [Lit "Failed to delete evaluation with ID: "; Fmt (VStr eval_id);
            Lit ". Error: "; FmtExn e] ;;;
     ret false).

(** [create_eval_run_sdk(self, eval_id, name, data_source, metadata=None)];
    [metadata] is [None] when the caller leaves the argument out. *)
Definition create_eval_run_sdk (eval_id name : string) (data_source : value)
    (metadata : option value) : M (gmap string value) :=
  let metadata := default VNone metadata in
  try_except
    (response <- await (runs_create_call eval_id name metadata data_source)
                       (fun c => runs_create c eval_id name metadata data_source) ;;
     let eval_run_id := default (VStr "Unknown ID") (to_dict response !! "id") in
     print [Lit "Created evaluation run for "; Fmt (VStr name); Lit ": "; Fmt eval_run_id] ;;;
     ret (to_dict response))
    (fun e =>
     print [Lit "Failed to create evaluation run. Error: "; FmtExn e] ;;;
     ret ∅).

(** [get_eval_run_list_sdk(self, eval_id)]. *)
Definition get_eval_run_list_sdk (eval_id : string) : M (list BaseModel) :=
  response <- await (runs_list_call eval_id) (fun c => runs_list c eval_id) ;;
  ret (data response).

(** [get_eval_run_sdk(self, eval_id, run_id)]. *)
Definition get_eval_run_sdk (eval_id run_id : string) : M (gmap string value) :=
  try_except
    (response <- await (runs_retrieve_call eval_id run_id)
                       (fun c => runs_retrieve c eval_id run_id) ;;
     ret (to_dict response))
    (fun e =>
     print [Lit "Failed to fetch evaluation run details for ID: "; Fmt (VStr run_id);
            Lit ". Error: "; FmtExn e] ;;;
     ret ∅).

(** [get_eval_run_output_items_sdk(self, eval_id, run_id)]. *)
Definition get_eval_run_output_items_sdk (eval_id run_id : string) : M (list BaseModel) :=
  try_except
    (response <- await (output_items_list_call eval_id run_id)
                       (fun c => output_items_list c eval_id run_id) ;;
     ret (data response))
    (fun e =>
     print [Lit "Failed to fetch output items for evaluation run ID: "; Fmt (VStr run_id);
            Lit ". Error: "; FmtExn e] ;;;
     ret []).

(** [get_eval_run_output_item_sdk(self, eval_id, run_id, item_id)]. *)
Definition get_eval_run_output_item_sdk (eval_id run_id item_id : string) : M (gmap string value) :=
  try_except
    (response <- await (output_items_retrieve_call eval_id run_id item_id)
                       (fun c => output_items_retrieve c eval_id run_id item_id) ;;
     ret (to_dict response))
    (fun e =>
     print [Lit "Failed to fetch output item for evaluation run ID: "; Fmt (VStr run_id);
            Lit ", item ID: "; Fmt (VStr item_id); Lit ". Error: "; FmtExn e] ;;;
     ret ∅).

(** [cancel_eval_run_sdk(self, eval_id, run_id)]. *)
Definition cancel_eval_run_sdk (eval_id run_id : string) : M bool :=
  try_except
    (await (runs_cancel_call eval_id run_id) (fun c => runs_cancel c eval_id run_id) ;;;
     print [Lit "Evaluation run with ID "; Fmt (VStr run_id); Lit " cancelled successfully."] ;;;
     ret true)
    (fun e =>
     print [Lit "Failed to cancel evaluation run with ID: "; Fmt (VStr run_id);
            Lit ". Error: "; FmtExn e] ;;;
     ret false).

(** [delete_eval_run_sdk(self, eval_id, run_id)]. *)
Definition delete_eval_run_sdk (eval_id run_id : string) : M bool :=
  try_except
    (await (runs_delete_call eval_id run_id) (fun c => runs_delete c eval_id run_id) ;;;
     print [Lit "Evaluation run with ID "; Fmt (VStr run_id); Lit " deleted successfully."] ;;;
     ret true)
    (fun e =>
     print [Lit "Failed to delete evaluation run with ID: "; Fmt (VStr run_id);
            Lit ". Error: "; FmtExn e] ;;;
     ret false).

(** ** Example worlds *)

Definition FileNotFoundError (path : string) : PyExn :=
  mkExn true ("[Errno 2] No such file or directory: '" +:+ path +:+ "'").
Definition APIConnectionError : PyExn := mkExn true "Connection error.".
(** [asyncio.CancelledError] derives from [BaseException] only. *)
Definition CancelledError : PyExn := mkExn false "".

(** A service on which every call fails with a connection error. *)
Definition offline : AsyncOpenAI := {|
  files_list := Raise APIConnectionError;
  files_create := fun _ _ => Raise APIConnectionError;
  evals_create := fun _ _ _ => Raise APIConnectionError;
  evals_list := Raise APIConnectionError;
  evals_retrieve := fun _ => Raise APIConnectionError;
  evals_delete := fun _ => Raise APIConnectionError;
  runs_create := fun _ _ _ _ => Raise APIConnectionError;
  runs_list := fun _ => Raise APIConnectionError;
  runs_retrieve := fun _ _ => Raise APIConnectionError;
  runs_cancel := fun _ _ => Raise APIConnectionError;
  runs_delete := fun _ _ => Raise APIConnectionError;
  output_items_list := fun _ _ => Raise APIConnectionError;
  output_items_retrieve := fun _ _ _ => Raise APIConnectionError
|}.

(** A service that lists the given files, accepts every upload under the
    identifier ["file-new"], and answers every evaluation call with a record
    that has only an ["id"]. *)
Definition serving (files : list FileObject) : AsyncOpenAI := {|
  files_list := Ok (mkPage files);
  files_create := fun f purpose => Ok (mkFile "file-new" (reader_name f) purpose);
  evals_create := fun _ _ _ => Ok (mkModel {[ "id" := VStr "eval-1" ]});
  evals_list := Ok (mkPage [mkModel {[ "id" := VStr "eval-1" ]}]);
  evals_retrieve := fun eval_id => Ok (mkModel {[ "id" := VStr eval_id ]});
  evals_delete := fun eval_id => Ok (mkModel {[ "id" := VStr eval_id ]});
  runs_create := fun _ _ _ _ => Ok (mkModel {[ "id" := VStr "run-1" ]});
  runs_list := fun _ => Ok (mkPage [mkModel {[ "id" := VStr "run-1" ]}]);
  runs_retrieve := fun _ run_id => Ok (mkModel {[ "id" := VStr run_id ]});
  runs_cancel := fun _ run_id => Ok (mkModel {[ "id" := VStr run_id ]});
  runs_delete := fun _ run_id => Ok (mkModel {[ "id" := VStr run_id ]});
  output_items_list := fun _ _ => Ok (mkPage []);
  output_items_retrieve := fun _ _ item_id => Ok (mkModel {[ "id" := VStr item_id ]})
|}.

(** A file system on which every path opens, with empty content. *)
Definition readable : string -> string -> result BufferedReader :=
  fun path _ => Ok (mkReader path []).

(** A file system with no file at all. *)
Definition no_files : string -> string -> result BufferedReader :=
  fun path _ => Raise (FileNotFoundError path).

Definition a_json : FileObject := mkFile "file-a" "a.json" "evals".

(** The remote lists [a.json]; every local path opens. *)
Definition world_with_a_json : World := mkWorld (serving [a_json]) readable "azure".

(** The remote lists nothing; every local path opens. *)
Definition world_empty_remote : World := mkWorld (serving []) readable "azure".

(** The remote lists nothing; no local path exists. *)
Definition world_no_local_file : World := mkWorld (serving []) no_files "azure".

(** The remote lists nothing and refuses every upload; every local path opens. *)
Definition world_upload_refused : World :=
  mkWorld
    (mkClient (Ok (mkPage [])) (fun _ _ => Raise APIConnectionError)
       (evals_create offline) (evals_list offline) (evals_retrieve offline)
       (evals_delete offline) (runs_create offline) (runs_list offline)
       (runs_retrieve offline) (runs_cancel offline) (runs_delete offline)
       (output_items_list offline) (output_items_retrieve offline))
    readable "openai".

(** Nothing answers; no local path exists. *)
Definition world_offline : World := mkWorld offline no_files "openai".

(** The remote lists nothing and the task is cancelled while the upload is
    awaited; every local path opens. *)
Definition world_cancelled_upload : World :=
  mkWorld
    (mkClient (Ok (mkPage [])) (fun _ _ => Raise CancelledError)
       (evals_create offline) (evals_list offline) (evals_retrieve offline)
       (evals_delete offline) (runs_create offline) (runs_list offline)
       (runs_retrieve offline) (runs_cancel offline) (runs_delete offline)
       (output_items_list offline) (output_items_retrieve offline))
    readable "openai".

(** ** The messages of [upload_file], named for the statements below *)

Definition reuse_message (file_name : string) : list fpart :=
  [Lit "File '"; Fmt (VStr file_name); Lit "' already exists. Returning existing file ID."].

Definition uploaded_message (w : World) : list fpart :=
  [Lit "File uploaded successfully to "; Fmt (VStr (provider_name w)); Lit "."].

Definition upload_failed_message (w : World) (e : PyExn) : list fpart :=
  [Lit "Failed to upload file to "; Fmt (VStr (provider_name w)); Lit ": "; FmtExn e].

(** An entry of the listing under another name than [file_name]. *)
Definition other_name (file_name : string) (g : FileObject) : Prop :=
  file_filename g <> file_name.

(** ** The shapes of the one-call methods, named for the statements below *)

(** A method that awaits one call and hands back a view of its response;
    on an [Exception] it prints and returns a sentinel. *)
Definition guarded_call {R A} (c : remote_call) (answer : AsyncOpenAI -> result R)
    (view : R -> A) (failure : PyExn -> list fpart) (sentinel : A) : M A :=
  try_except
    (response <- await c answer ;; ret (view response))
    (fun e => print (failure e) ;;; ret sentinel).

(** A method that awaits one call, prints and returns [True]; on an
    [Exception] it prints and returns [False]. *)
Definition flag_call {R} (c : remote_call) (answer : AsyncOpenAI -> result R)
    (success : list fpart) (failure : PyExn -> list fpart) : M bool :=
  try_except
    (await c answer ;;; print success ;;; ret true)
    (fun e => print (failure e) ;;; ret false).

(** [m] issues the one remote call [c]; it returns [True] exactly when the
    answer to [c] is not a raise, and when the answer raises an [Exception]
    it prints and returns [False]. *)
Definition success_flag {R} (m : M bool) (c : remote_call)
    (answer : AsyncOpenAI -> result R) : Prop :=
  forall w : World,
    remote_calls (fst (m w)) = [Remote c]
    /\ (snd (m w) = Ok true <-> exists r, answer (client w) = Ok r)
    /\ (forall e, answer (client w) = Raise e -> exn_is_Exception e = true ->
         snd (m w) = Ok false /\ exists msg, fst (m w) = [Remote c; Print msg]).

(** ** Module-level settings and [__init__] *)

(** [str.lower()] on ASCII text: the letters [A]-[Z] go to [a]-[z], every
    other character of the ASCII range is kept. *)
Definition lower_char (c : Ascii.ascii) : Ascii.ascii :=
  let n := Ascii.nat_of_ascii c in
  if (65 <=? n)%nat && (n <=? 90)%nat then Ascii.ascii_of_nat (n + 32) else c.

Fixpoint lower (s : string) : string :=
  match s with
  | EmptyString => EmptyString
  | String c rest => String (lower_char c) (lower rest)
  end.

(** The text is in the ASCII range, where [lower] is [str.lower()]. *)
Definition is_ascii_text (s : string) : Prop :=
  Forall (fun c => (Ascii.nat_of_ascii c < 128)%nat) (String.list_ascii_of_string s).

(** [os.getenv(key, fallback)] over the process environment, as it stands
    after [load_dotenv()]. *)
Definition getenv (environ : gmap string string) (key fallback : string) : string :=
  default fallback (environ !! key).

Module Settings.

(** The module-level names read by the client. *)
Record t := mk {
  OAI_API_TYPE : string;
  AZURE_API_KEY : option string;
  AZURE_API_ENDPOINT : string;
  OPENAI_API_KEY : option string;
  OPENAI_API_BASE : string
}.

End Settings.

(** The assignments at the top of the module. *)
Definition load_settings (environ : gmap string string) : Settings.t := {|
  Settings.OAI_API_TYPE := lower (getenv environ "OAI_API_TYPE" "azure");
  Settings.AZURE_API_KEY := environ !! "AZURE_API_KEY";
  Settings.AZURE_API_ENDPOINT := getenv environ "AZURE_API_ENDPOINT" "" +:+ "/openai/v1";
  Settings.OPENAI_API_KEY := environ !! "OPENAI_API_KEY";
  Settings.OPENAI_API_BASE := getenv environ "OPENAI_API_BASE" "" +:+ "/v1"
|}.

(** The keyword arguments [__init__] hands to [AsyncOpenAI]. *)
Record ClientArgs := mkArgs {
  base_url : string;
  api_key : option string;
  default_query : option (gmap string string)
}.

(** [AsyncEvalClient.__init__]. *)
Definition init (s : Settings.t) : ClientArgs :=
  let params :=
    if negb (String.eqb (Settings.OAI_API_TYPE s) "openai")
    then Some ({[ "aoai-evals" := "preview" ]} : gmap string string) else None in
  let base_url :=
    if negb (String.eqb (Settings.OAI_API_TYPE s) "openai")
    then Settings.AZURE_API_ENDPOINT s else Settings.OPENAI_API_BASE s in
  let api_key :=
    if negb (String.eqb (Settings.OAI_API_TYPE s) "openai")
    then Settings.AZURE_API_KEY s else Settings.OPENAI_API_KEY s in
  {| base_url := base_url; api_key := api_key; default_query := params |}.

(** ** The runs of [upload_file], one constructor per path through the body *)

Inductive upload_run (w : World) (file_name file_path : string) (purpose : option string) :
    list event * result string -> Prop :=
| run_list_raises e :
    files_list (client w) = Raise e ->
    upload_run w file_name file_path purpose ([Remote files_list_call], Raise e)
| run_existing page pre file post :
    files_list (client w) = Ok page ->
    data page = pre ++ file :: post ->
    Forall (other_name file_name) pre ->
    file_filename file = file_name ->
    upload_run w file_name file_path purpose
      ([Remote files_list_call; Print (reuse_message file_name)], Ok (file_id file))
| run_open_caught page e :
    files_list (client w) = Ok page ->
    Forall (other_name file_name) (data page) ->
    builtin_open w file_path "rb" = Raise e ->
    exn_is_Exception e = true ->
    upload_run w file_name file_path purpose
      ([Remote files_list_call; Open file_path "rb"; Print (upload_failed_message w e)], Ok "")
| run_open_passes page e :
    files_list (client w) = Ok page ->
    Forall (other_name file_name) (data page) ->
    builtin_open w file_path "rb" = Raise e ->
    exn_is_Exception e = false ->
    upload_run w file_name file_path purpose
      ([Remote files_list_call; Open file_path "rb"], Raise e)
| run_created page f response :
    files_list (client w) = Ok page ->
    Forall (other_name file_name) (data page) ->
    builtin_open w file_path "rb" = Ok f ->
    files_create (client w) f (default "evals" purpose) = Ok response ->
    upload_run w file_name file_path purpose
      ([Remote files_list_call; Open file_path "rb";
        Remote (files_create_call f (default "evals" purpose));
        Close f; Print (uploaded_message w)],
       Ok (file_id response))
| run_create_caught page f e :
    files_list (client w) = Ok page ->
    Forall (other_name file_name) (data page) ->
    builtin_open w file_path "rb" = Ok f ->
    files_create (client w) f (default "evals" purpose) = Raise e ->
    exn_is_Exception e = true ->
    upload_run w file_name file_path purpose
      ([Remote files_list_call; Open file_path "rb";
        Remote (files_create_call f (default "evals" purpose));
        Close f; Print (upload_failed_message w e)],
       Ok "")
| run_create_passes page f e :
    files_list (client w) = Ok page ->
    Forall (other_name file_name) (data page) ->
    builtin_open w file_path "rb" = Ok f ->
    files_create (client w) f (default "evals" purpose) = Raise e ->
    exn_is_Exception e = false ->
    upload_run w file_name file_path purpose
      ([Remote files_list_call; Open file_path "rb";
        Remote (files_create_call f (default "evals" purpose)); Close f],
       Raise e).

(** ** What the statements below say of a method *)

(** No instance of [Exception] leaves [m]. *)
Definition never_raises_Exception {A} (m : M A) : Prop :=
  forall (w : World) (e : PyExn), snd (m w) = Raise e -> exn_is_Exception e = false.

(** Whatever the world answers, the remote calls of [m] are the one call [c]. *)
Definition one_remote_call {A} (m : M A) (c : remote_call) : Prop :=
  forall w : World, remote_calls (fst (m w)) = [Remote c].

(** When the call answered by [answer] raises an [Exception], the last thing
    [m] does is print a message that carries it. *)
Definition prints_caught_exception {A R} (m : M A) (answer : AsyncOpenAI -> result R) : Prop :=
  forall (w : World) (e : PyExn),
    answer (client w) = Raise e -> exn_is_Exception e = true ->
    exists t msg, fst (m w) = t ++ [Print msg] /\ FmtExn e ∈ msg.

(** A service on which every awaited call is cancelled. *)
Definition cancelled : AsyncOpenAI := {|
  files_list := Raise CancelledError;
  files_create := fun _ _ => Raise CancelledError;
  evals_create := fun _ _ _ => Raise CancelledError;
  evals_list := Raise CancelledError;
  evals_retrieve := fun _ => Raise CancelledError;
  evals_delete := fun _ => Raise CancelledError;
  runs_create := fun _ _ _ _ => Raise CancelledError;
  runs_list := fun _ => Raise CancelledError;
  runs_retrieve := fun _ _ => Raise CancelledError;
  runs_cancel := fun _ _ => Raise CancelledError;
  runs_delete := fun _ _ => Raise CancelledError;
  output_items_list := fun _ _ => Raise CancelledError;
  output_items_retrieve := fun _ _ _ => Raise CancelledError
|}.

Definition world_cancelled : World := mkWorld cancelled readable "azure".

(** A service that answers evaluation and run creation with a record that
    has a ["status"] and no ["id"]. *)
Definition serving_without_id : AsyncOpenAI := {|
  files_list := Ok (mkPage []);
  files_create := fun f purpose => Ok (mkFile "file-new" (reader_name f) purpose);
  evals_create := fun _ _ _ => Ok (mkModel {[ "status" := VStr "ok" ]});
  evals_list := Ok (mkPage []);
  evals_retrieve := fun _ => Ok (mkModel {[ "status" := VStr "ok" ]});
  evals_delete := fun _ => Ok (mkModel ∅);
  runs_create := fun _ _ _ _ => Ok (mkModel {[ "status" := VStr "queued" ]});
  runs_list := fun _ => Ok (mkPage []);
  runs_retrieve := fun _ _ => Ok (mkModel ∅);
  runs_cancel := fun _ _ => Ok (mkModel ∅);
  runs_delete := fun _ _ => Ok (mkModel ∅);
  output_items_list := fun _ _ => Ok (mkPage []);
  output_items_retrieve := fun _ _ _ => Ok (mkModel ∅)
|}.

Definition world_without_id : World := mkWorld serving_without_id readable "azure".

(** * Properties *)

(** ** The handler *)

Section TryExcept.
Context {A : Type}.
Implicit Types (body : M A) (handler : PyExn -> M A) (w : World).

Lemma try_except_ok body handler w t a :
  body w = (t, Ok a) -> try_except body handler w = (t, Ok a).
Proof. unfold try_except. by intros ->. Qed.

Lemma try_except_caught body handler w t e :
  body w = (t, Raise e) -> exn_is_Exception e = true ->
  try_except body handler w = (t ++ fst (handler e w), snd (handler e w)).
Proof. unfold try_except. intros -> ->. by destruct (handler e w). Qed.

(** What is not an [Exception] goes through [except Exception]. *)
Lemma try_except_passes body handler w t e :
  body w = (t, Raise e) -> exn_is_Exception e = false ->
  try_except body handler w = (t, Raise e).
Proof. unfold try_except. by intros -> ->. Qed.

End TryExcept.

(** ** The dedup scan of [upload_file] *)

Section Scan.
Variables (file_name : string) (w : World).

Lemma scan_absent files :
  Forall (other_name file_name) files -> upload_file_scan files file_name w = ([], Ok None).
Proof.
  induction 1 as [|g files Hg _ IH]; [done|]. simpl.
  destruct (String.eqb_spec (file_filename g) file_name); [done | exact IH].
Qed.

Lemma scan_first pre file post :
  Forall (other_name file_name) pre -> file_filename file = file_name ->
  upload_file_scan (pre ++ file :: post) file_name w
  = ([Print (reuse_message file_name)], Ok (Some (file_id file))).
Proof.
  intros Hpre Hfile. induction Hpre as [|g pre Hg _ IH]; simpl.
  - rewrite Hfile, String.eqb_refl. reflexivity.
  - destruct (String.eqb_spec (file_filename g) file_name); [done | exact IH].
Qed.

(** A listed name has a first entry. *)
Lemma first_entry files :
  file_name ∈ file_filename <$> files ->
  exists pre file post,
    files = pre ++ file :: post /\ Forall (other_name file_name) pre
    /\ file_filename file = file_name.
Proof.
  induction files as [|g files IH]; simpl; intros Hin.
  - by apply elem_of_nil in Hin.
  - destruct (decide (file_filename g = file_name)) as [Heq|Hne].
    + exists [], g, files. by repeat split.
    + apply elem_of_cons in Hin as [Heq|Hin]; [congruence|].
      destruct (IH Hin) as (pre & file & post & -> & Hpre & Hfile).
      exists (g :: pre), file, post. repeat split; [by constructor | done].
Qed.

Lemma unlisted files :
  file_name ∉ file_filename <$> files -> Forall (other_name file_name) files.
Proof.
  intros Hnot. apply Forall_forall. intros g Hg Heq. apply Hnot.
  rewrite <- Heq. by apply list_elem_of_fmap_2.
Qed.

(** A listing either lacks the name or has a first entry under it. *)
Lemma listing_cases files :
  Forall (other_name file_name) files
  \/ (exists pre file post,
        files = pre ++ file :: post /\ Forall (other_name file_name) pre
        /\ file_filename file = file_name).
Proof.
  destruct (decide (file_name ∈ file_filename <$> files)) as [Hin|Hnot].
  - right. by apply first_entry.
  - left. by apply unlisted.
Qed.

End Scan.

(** ** The paths of [upload_file] *)

Section Upload.
Variables (file_name file_path : string) (purpose : option string) (w : World).

Lemma upload_list_raises e :
  files_list (client w) = Raise e ->
  upload_file file_name file_path purpose w = ([Remote files_list_call], Raise e).
Proof. intros Hlist. unfold upload_file, bind, await. by rewrite Hlist. Qed.

Lemma upload_existing page pre file post :
  files_list (client w) = Ok page ->
  data page = pre ++ file :: post ->
  Forall (other_name file_name) pre ->
  file_filename file = file_name ->
  upload_file file_name file_path purpose w
  = ([Remote files_list_call; Print (reuse_message file_name)], Ok (file_id file)).
Proof.
  intros Hlist Hdata Hpre Hfile. unfold upload_file, bind, await.
  rewrite Hlist, Hdata, (scan_first file_name w pre file post Hpre Hfile).
  reflexivity.
Qed.

Section Absent.
Variable page : Page FileObject.
Hypothesis Hlist : files_list (client w) = Ok page.
Hypothesis Habsent : Forall (other_name file_name) (data page).

Lemma upload_open_raises e :
  builtin_open w file_path "rb" = Raise e ->
  upload_file file_name file_path purpose w
  = if exn_is_Exception e
    then ([Remote files_list_call; Open file_path "rb"; Print (upload_failed_message w e)],
          Ok "")
    else ([Remote files_list_call; Open file_path "rb"], Raise e).
Proof.
  intros Hopen. unfold upload_file, bind at 1 2, await.
  rewrite Hlist, (scan_absent file_name w _ Habsent).
  unfold try_except, bind, with_open. rewrite Hopen.
  by destruct (exn_is_Exception e).
Qed.

Lemma upload_created f response :
  builtin_open w file_path "rb" = Ok f ->
  files_create (client w) f (default "evals" purpose) = Ok response ->
  upload_file file_name file_path purpose w
  = ([Remote files_list_call; Open file_path "rb";
      Remote (files_create_call f (default "evals" purpose));
      Close f; Print (uploaded_message w)],
     Ok (file_id response)).
Proof.
  intros Hopen Hcreate. unfold upload_file, bind at 1 2, await.
  rewrite Hlist, (scan_absent file_name w _ Habsent).
  unfold try_except, bind, with_open. rewrite Hopen. by rewrite Hcreate.
Qed.

Lemma upload_create_raises f e :
  builtin_open w file_path "rb" = Ok f ->
  files_create (client w) f (default "evals" purpose) = Raise e ->
  upload_file file_name file_path purpose w
  = if exn_is_Exception e
    then ([Remote files_list_call; Open file_path "rb";
           Remote (files_create_call f (default "evals" purpose));
           Close f; Print (upload_failed_message w e)],
          Ok "")
    else ([Remote files_list_call; Open file_path "rb";
           Remote (files_create_call f (default "evals" purpose)); Close f],
          Raise e).
Proof.
  intros Hopen Hcreate. unfold upload_file, bind at 1 2, await.
  rewrite Hlist, (scan_absent file_name w _ Habsent).
  unfold try_except, bind, with_open. rewrite Hopen, Hcreate.
  by destruct (exn_is_Exception e).
Qed.

End Absent.
End Upload.

(** ** Upload with dedup *)

(** Splits a hypothesis [t = before ++ ev :: after] over a trace [t] that is
    known event by event. *)
Ltac locate_event before :=
  repeat (destruct before as [|? before]; simplify_eq/=).

(** C1. When the file name is the filename of some entry of the listing
    returned by [client.files.list()], [upload_file] issues no
    [client.files.create] call and returns the identifier of the first entry,
    in listing order, whose filename is that name; the local path, and what
    [open] would do with it, play no part. *)
Theorem upload_file_reuses_listed_file
    (w : World) (file_name file_path : string) (purpose : option string)
    (page : Page FileObject) :
  files_list (client w) = Ok page ->
  file_name ∈ file_filename <$> data page ->
  exists pre file post,
    data page = pre ++ file :: post
    /\ Forall (other_name file_name) pre
    /\ file_filename file = file_name
    /\ snd (upload_file file_name file_path purpose w) = Ok (file_id file)
    /\ create_calls (fst (upload_file file_name file_path purpose w)) = 0.
Proof.
  intros Hlist Hin.
  destruct (first_entry file_name (data page) Hin) as (pre & file & post & Hdata & Hpre & Hfile).
  exists pre, file, post.
  rewrite (upload_existing file_name file_path purpose w page pre file post Hlist Hdata Hpre Hfile).
  by repeat split.
Qed.

Lemma upload_file_reuses_listed_file_witness :
  exists pre file post,
    [a_json] = pre ++ file :: post
    /\ Forall (other_name "a.json") pre
    /\ file_filename file = "a.json"
    /\ snd (upload_file "a.json" "/tmp/a.json" None world_with_a_json) = Ok (file_id file)
    /\ create_calls (fst (upload_file "a.json" "/tmp/a.json" None world_with_a_json)) = 0.
Proof.
  apply (upload_file_reuses_listed_file world_with_a_json "a.json" "/tmp/a.json" None
           (mkPage [a_json])); [reflexivity | simpl; left].
Defined.

(** C2. When the file name is the filename of no entry of the listing, and
    both [open(file_path, 'rb')] and [client.files.create] succeed,
    [upload_file] issues exactly one [client.files.create] call, on the opened
    file and with the given purpose (["evals"] when none is given), and returns
    the identifier of that call's response. *)
Theorem upload_file_creates_unlisted_file
    (w : World) (file_name file_path : string) (purpose : option string)
    (page : Page FileObject) (f : BufferedReader) (tag : string) (response : FileObject) :
  files_list (client w) = Ok page ->
  file_name ∉ file_filename <$> data page ->
  tag = match purpose with Some given => given | None => "evals" end ->
  builtin_open w file_path "rb" = Ok f ->
  files_create (client w) f tag = Ok response ->
  snd (upload_file file_name file_path purpose w) = Ok (file_id response)
  /\ creates (fst (upload_file file_name file_path purpose w))
     = [Remote (files_create_call f tag)]
  /\ create_calls (fst (upload_file file_name file_path purpose w)) = 1.
Proof.
  intros Hlist Hnot -> Hopen Hcreate.
  assert (Htag : match purpose with Some given => given | None => "evals" end
                 = default "evals" purpose) by by destruct purpose.
  rewrite Htag in *.
  rewrite (upload_created file_name file_path purpose w page Hlist
             (unlisted file_name _ Hnot) f response Hopen Hcreate).
  by repeat split.
Qed.

Lemma upload_file_creates_unlisted_file_witness :
  snd (upload_file "b.json" "/tmp/b.json" None world_empty_remote) = Ok "file-new"
  /\ creates (fst (upload_file "b.json" "/tmp/b.json" None world_empty_remote))
     = [Remote (files_create_call (mkReader "/tmp/b.json" []) "evals")]
  /\ create_calls (fst (upload_file "b.json" "/tmp/b.json" None world_empty_remote)) = 1.
Proof.
  apply (upload_file_creates_unlisted_file world_empty_remote "b.json" "/tmp/b.json" None
           (mkPage []) (mkReader "/tmp/b.json" []) "evals"
           (mkFile "file-new" "/tmp/b.json" "evals"));
    [reflexivity | simpl; apply not_elem_of_nil | reflexivity | reflexivity | reflexivity].
Defined.

(** C3. Whenever a run of [upload_file] reaches [client.files.create] and that
    call raises an error (an instance of [Exception]), the error is caught:
    [upload_file] returns the empty string, the failure is printed, and the
    part of the trace after the failed call holds no remote call. *)
Theorem upload_file_create_failure
    (w : World) (file_name file_path : string) (purpose : option string)
    (before after : list event) (f : BufferedReader) (tag : string) (e : PyExn) :
  fst (upload_file file_name file_path purpose w)
  = before ++ Remote (files_create_call f tag) :: after ->
  files_create (client w) f tag = Raise e ->
  exn_is_Exception e = true ->
  snd (upload_file file_name file_path purpose w) = Ok ""
  /\ remote_calls after = []
  /\ Print (upload_failed_message w e) ∈ after.
Proof.
  intros Htrace Hcreate Hexc.
  destruct (files_list (client w)) as [page|e0] eqn:Hlist.
  2: { rewrite (upload_list_raises file_name file_path purpose w e0 Hlist) in Htrace.
       simpl in Htrace. locate_event before. }
  destruct (listing_cases file_name (data page))
    as [Habsent | (pre & file & post & Hdata & Hpre & Hfile)].
  2: { rewrite (upload_existing file_name file_path purpose w page pre file post
                  Hlist Hdata Hpre Hfile) in Htrace.
       simpl in Htrace. locate_event before. }
  destruct (builtin_open w file_path "rb") as [f'|e0] eqn:Hopen.
  2: { rewrite (upload_open_raises file_name file_path purpose w page Hlist Habsent e0 Hopen)
         in Htrace.
       destruct (exn_is_Exception e0); simpl in Htrace; locate_event before. }
  destruct (files_create (client w) f' (default "evals" purpose)) as [response|e0] eqn:Hcreate'.
  - rewrite (upload_created file_name file_path purpose w page Hlist Habsent f' response
               Hopen Hcreate') in Htrace.
    simpl in Htrace. locate_event before. congruence.
  - pose proof (upload_create_raises file_name file_path purpose w page Hlist Habsent f' e0
                  Hopen Hcreate') as Hrun.
    destruct (exn_is_Exception e0) eqn:Hexc0; rewrite Hrun in Htrace |- *;
      simpl in Htrace; locate_event before; [|congruence].
    assert (e0 = e) as -> by congruence.
    repeat split. apply elem_of_cons. right. apply elem_of_cons. by left.
Qed.

Lemma upload_file_create_failure_witness :
  snd (upload_file "b.json" "/tmp/b.json" None world_upload_refused) = Ok ""
  /\ remote_calls [Close (mkReader "/tmp/b.json" []);
                   Print (upload_failed_message world_upload_refused APIConnectionError)] = []
  /\ Print (upload_failed_message world_upload_refused APIConnectionError)
     ∈ [Close (mkReader "/tmp/b.json" []);
        Print (upload_failed_message world_upload_refused APIConnectionError)].
Proof.
  apply (upload_file_create_failure world_upload_refused "b.json" "/tmp/b.json" None
           [Remote files_list_call; Open "/tmp/b.json" "rb"]
           _ (mkReader "/tmp/b.json" []) "evals" APIConnectionError);
    reflexivity.
Defined.

(** The handler is [except Exception]: a cancellation delivered at the
    awaited upload closes the file and leaves [upload_file] uncaught. *)
Example upload_file_cancelled_at_create :
  upload_file "b.json" "/tmp/b.json" None world_cancelled_upload
  = ([Remote files_list_call; Open "/tmp/b.json" "rb";
      Remote (files_create_call (mkReader "/tmp/b.json" []) "evals");
      Close (mkReader "/tmp/b.json" [])],
     Raise CancelledError).
Proof. reflexivity. Qed.

(** C4, as stated, fails: with the name unlisted and no file at the local
    path, [open] raises [FileNotFoundError] inside the [try] block, and
    [upload_file] returns the empty string instead of raising. *)
Lemma upload_file_open_error_is_caught :
  files_list (client world_no_local_file) = Ok (mkPage [])
  /\ ("b.json" ∉ file_filename <$> data (mkPage []))
  /\ builtin_open world_no_local_file "/tmp/b.json" "rb"
     = Raise (FileNotFoundError "/tmp/b.json")
  /\ snd (upload_file "b.json" "/tmp/b.json" None world_no_local_file) = Ok ""
  /\ snd (upload_file "b.json" "/tmp/b.json" None world_no_local_file)
     <> Raise (FileNotFoundError "/tmp/b.json").
Proof. repeat split; [apply not_elem_of_nil | discriminate]. Qed.

(** C4, amended. When the file name is unlisted and [open(file_path, 'rb')]
    raises a local I/O error (an [OSError], hence an [Exception]), the error
    is caught by the handler of [upload_file]: no [client.files.create] call
    is issued, the failure is printed and the empty string is returned. *)
Theorem upload_file_open_failure
    (w : World) (file_name file_path : string) (purpose : option string)
    (page : Page FileObject) (e : PyExn) :
  files_list (client w) = Ok page ->
  file_name ∉ file_filename <$> data page ->
  builtin_open w file_path "rb" = Raise e ->
  exn_is_Exception e = true ->
  upload_file file_name file_path purpose w
  = ([Remote files_list_call; Open file_path "rb"; Print (upload_failed_message w e)], Ok "")
  /\ create_calls (fst (upload_file file_name file_path purpose w)) = 0.
Proof.
  intros Hlist Hnot Hopen Hexc.
  rewrite (upload_open_raises file_name file_path purpose w page Hlist
             (unlisted file_name _ Hnot) e Hopen), Hexc.
  by split.
Qed.

Lemma upload_file_open_failure_witness :
  upload_file "b.json" "/tmp/b.json" None world_no_local_file
  = ([Remote files_list_call; Open "/tmp/b.json" "rb";
      Print (upload_failed_message world_no_local_file (FileNotFoundError "/tmp/b.json"))],
     Ok "")
  /\ create_calls (fst (upload_file "b.json" "/tmp/b.json" None world_no_local_file)) = 0.
Proof.
  apply (upload_file_open_failure world_no_local_file "b.json" "/tmp/b.json" None
           (mkPage []) (FileNotFoundError "/tmp/b.json"));
    [reflexivity | simpl; apply not_elem_of_nil | reflexivity | reflexivity].
Defined.

(** C8. Whatever [client.files.list()] raises leaves [upload_file] as it was
    raised: the listing is the only event of the run, nothing is printed, and
    this holds for instances of [Exception] too, the call standing outside
    the [try] block. *)
Theorem upload_file_list_error_propagates
    (w : World) (file_name file_path : string) (purpose : option string) (e : PyExn) :
  files_list (client w) = Raise e ->
  upload_file file_name file_path purpose w = ([Remote files_list_call], Raise e).
Proof. apply upload_list_raises. Qed.

Lemma upload_file_list_error_propagates_witness :
  upload_file "a.json" "/tmp/a.json" None world_offline
  = ([Remote files_list_call], Raise APIConnectionError).
Proof.
  apply (upload_file_list_error_propagates world_offline "a.json" "/tmp/a.json" None
           APIConnectionError).
  reflexivity.
Defined.

(** ** One-call methods *)

Section OneCall.
Context {R A : Type}.
Variables (c : remote_call) (answer : AsyncOpenAI -> result R).

Lemma guarded_call_ok (view : R -> A) failure sentinel w r :
  answer (client w) = Ok r ->
  guarded_call c answer view failure sentinel w = ([Remote c], Ok (view r)).
Proof. intros H. unfold guarded_call, try_except, bind, await. by rewrite H. Qed.

Lemma guarded_call_caught (view : R -> A) failure sentinel w e :
  answer (client w) = Raise e -> exn_is_Exception e = true ->
  guarded_call c answer view failure sentinel w
  = ([Remote c; Print (failure e)], Ok sentinel).
Proof. intros H He. unfold guarded_call, try_except, bind, await. by rewrite H, He. Qed.

Lemma guarded_call_passes (view : R -> A) failure sentinel w e :
  answer (client w) = Raise e -> exn_is_Exception e = false ->
  guarded_call c answer view failure sentinel w = ([Remote c], Raise e).
Proof. intros H He. unfold guarded_call, try_except, bind, await. by rewrite H, He. Qed.

Lemma flag_call_spec success failure :
  success_flag (flag_call c answer success failure) c answer.
Proof.
  intros w. unfold flag_call, try_except, bind, await, print, ret.
  destruct (answer (client w)) as [r|e]; simpl.
  - split; [done|]. split; [split; [by exists r | done] | done].
  - destruct (exn_is_Exception e) eqn:He; simpl.
    + split; [done|]. split; [split; [done | by intros [r Hr]] |].
      intros e' [= <-] _. split; [done | by eexists].
    + split; [done|]. split; [split; [done | by intros [r Hr]] |].
      intros e' [= <-] He'. congruence.
Qed.

End OneCall.

(** The guarded methods are instances of the two shapes. *)
Lemma get_eval_sdk_shape eval_id :
  get_eval_sdk eval_id
  = guarded_call (evals_retrieve_call eval_id) (fun c => evals_retrieve c eval_id) to_dict
      (fun e => [Lit "Failed to fetch evaluation details for ID: "; Fmt (VStr eval_id);
                 Lit ". Error: "; FmtExn e])
      {[ "name" := VStr ("Unknown Evaluation (" +:+ eval_id +:+ ")") ]}.
Proof. reflexivity. Qed.

Lemma get_eval_run_sdk_shape eval_id run_id :
  get_eval_run_sdk eval_id run_id
  = guarded_call (runs_retrieve_call eval_id run_id) (fun c => runs_retrieve c eval_id run_id)
      to_dict
      (fun e => [Lit "Failed to fetch evaluation run details for ID: "; Fmt (VStr run_id);
                 Lit ". Error: "; FmtExn e])
      ∅.
Proof. reflexivity. Qed.

Lemma get_eval_run_output_items_sdk_shape eval_id run_id :
  get_eval_run_output_items_sdk eval_id run_id
  = guarded_call (output_items_list_call eval_id run_id)
      (fun c => output_items_list c eval_id run_id) data
      (fun e => [Lit "Failed to fetch output items for evaluation run ID: ";
                 Fmt (VStr run_id); Lit ". Error: "; FmtExn e])
      [].
Proof. reflexivity. Qed.

Lemma delete_eval_sdk_shape eval_id :
  delete_eval_sdk eval_id
  = flag_call (evals_delete_call eval_id) (fun c => evals_delete c eval_id)
      [Lit "Evaluation with ID "; Fmt (VStr eval_id); Lit " deleted successfully."]
      (fun e => [Lit "Failed to delete evaluation with ID: "; Fmt (VStr eval_id);
                 Lit ". Error: "; FmtExn e]).
Proof. reflexivity. Qed.

Lemma cancel_eval_run_sdk_shape eval_id run_id :
  cancel_eval_run_sdk eval_id run_id
  = flag_call (runs_cancel_call eval_id run_id) (fun c => runs_cancel c eval_id run_id)
      [Lit "Evaluation run with ID "; Fmt (VStr run_id); Lit " cancelled successfully."]
      (fun e => [Lit "Failed to cancel evaluation run with ID: "; Fmt (VStr run_id);
                 Lit ". Error: "; FmtExn e]).
Proof. reflexivity. Qed.

Lemma delete_eval_run_sdk_shape eval_id run_id :
  delete_eval_run_sdk eval_id run_id
  = flag_call (runs_delete_call eval_id run_id) (fun c => runs_delete c eval_id run_id)
      [Lit "Evaluation run with ID "; Fmt (VStr run_id); Lit " deleted successfully."]
      (fun e => [Lit "Failed to delete evaluation run with ID: "; Fmt (VStr run_id);
                 Lit ". Error: "; FmtExn e]).
Proof. reflexivity. Qed.

(** The placeholder of [get_eval_sdk]. *)
Lemma get_eval_sdk_caught w eval_id e :
  evals_retrieve (client w) eval_id = Raise e -> exn_is_Exception e = true ->
  snd (get_eval_sdk eval_id w)
  = Ok {[ "name" := VStr ("Unknown Evaluation (" +:+ eval_id +:+ ")") ]}.
Proof.
  intros Hcall Hexc. rewrite get_eval_sdk_shape.
  by rewrite (guarded_call_caught _ (fun c => evals_retrieve c eval_id) _ _ _ w e Hcall Hexc).
Qed.

(** ** Listing *)

(** C5, as stated, fails: when the service is unreachable, the evaluation
    list and the evaluation-run list raise the connection error to the caller
    instead of returning an empty sequence. *)
Lemma list_methods_propagate_failure :
  evals_list (client world_offline) = Raise APIConnectionError
  /\ exn_is_Exception APIConnectionError = true
  /\ get_eval_list_sdk world_offline = ([Remote evals_list_call], Raise APIConnectionError)
  /\ snd (get_eval_list_sdk world_offline) <> Ok []
  /\ runs_list (client world_offline) "eval-1" = Raise APIConnectionError
  /\ get_eval_run_list_sdk "eval-1" world_offline
     = ([Remote (runs_list_call "eval-1")], Raise APIConnectionError)
  /\ snd (get_eval_run_list_sdk "eval-1" world_offline) <> Ok [].
Proof. repeat split; discriminate. Qed.

(** C5, amended. Of the listing methods other than the dedup listing, only
    the output-items list has a handler: when its remote call raises an error
    (an instance of [Exception]) it prints the failure and returns the empty
    sequence.  The evaluation list and the evaluation-run list have none:
    whatever their remote call raises reaches the caller, and nothing is
    printed. *)
Theorem listing_failures (w : World) (eval_id run_id : string) (e : PyExn) :
  (evals_list (client w) = Raise e ->
   get_eval_list_sdk w = ([Remote evals_list_call], Raise e))
  /\ (runs_list (client w) eval_id = Raise e ->
      get_eval_run_list_sdk eval_id w = ([Remote (runs_list_call eval_id)], Raise e))
  /\ (output_items_list (client w) eval_id run_id = Raise e ->
      exn_is_Exception e = true ->
      exists msg,
        get_eval_run_output_items_sdk eval_id run_id w
        = ([Remote (output_items_list_call eval_id run_id); Print msg], Ok [])).
Proof.
  split; [|split].
  - intros Hcall. unfold get_eval_list_sdk, bind, await. by rewrite Hcall.
  - intros Hcall. unfold get_eval_run_list_sdk, bind, await. by rewrite Hcall.
  - intros Hcall Hexc. rewrite get_eval_run_output_items_sdk_shape. eexists.
    by apply guarded_call_caught.
Qed.

Lemma listing_failures_witness :
  get_eval_list_sdk world_offline = ([Remote evals_list_call], Raise APIConnectionError)
  /\ get_eval_run_list_sdk "eval-1" world_offline
     = ([Remote (runs_list_call "eval-1")], Raise APIConnectionError)
  /\ exists msg,
       get_eval_run_output_items_sdk "eval-1" "run-1" world_offline
       = ([Remote (output_items_list_call "eval-1" "run-1"); Print msg], Ok []).
Proof.
  destruct (listing_failures world_offline "eval-1" "run-1" APIConnectionError)
    as (Hevals & Hruns & Hitems).
  split; [apply Hevals; reflexivity|].
  split; [apply Hruns; reflexivity|].
  apply Hitems; reflexivity.
Defined.

(** ** Evaluation retrieval *)

(** C6. When [client.evals.retrieve] raises an error (an instance of
    [Exception]) on an evaluation identifier, [get_eval_sdk] returns a record
    whose ["name"] is the string ["Unknown Evaluation (<id>)"], with the
    requested identifier in the place of [<id>]. *)
Theorem get_eval_sdk_placeholder_name (w : World) (eval_id : string) (e : PyExn) :
  evals_retrieve (client w) eval_id = Raise e ->
  exn_is_Exception e = true ->
  exists record : gmap string value,
    snd (get_eval_sdk eval_id w) = Ok record
    /\ record !! "name" = Some (VStr ("Unknown Evaluation (" +:+ eval_id +:+ ")")).
Proof.
  intros Hcall Hexc. eexists. split; [by apply (get_eval_sdk_caught w eval_id e)|].
  apply lookup_singleton_eq.
Qed.

Lemma get_eval_sdk_placeholder_name_witness :
  exists record : gmap string value,
    snd (get_eval_sdk "missing-123" world_offline) = Ok record
    /\ record !! "name" = Some (VStr "Unknown Evaluation (missing-123)").
Proof.
  apply (get_eval_sdk_placeholder_name world_offline "missing-123" APIConnectionError);
    reflexivity.
Defined.

(** C10. The record [get_eval_sdk] returns when [client.evals.retrieve]
    raises an error has the one key ["name"]: it is the singleton mapping, it
    has no ["id"] entry, and its set of keys is [{"name"}]. *)
Theorem get_eval_sdk_placeholder_keys (w : World) (eval_id : string) (e : PyExn) :
  evals_retrieve (client w) eval_id = Raise e ->
  exn_is_Exception e = true ->
  exists record : gmap string value,
    snd (get_eval_sdk eval_id w) = Ok record
    /\ dom record = ({[ "name" ]} : gset string)
    /\ record !! "id" = None
    /\ forall key, is_Some (record !! key) <-> key = "name".
Proof.
  intros Hcall Hexc. eexists. split; [by apply (get_eval_sdk_caught w eval_id e)|].
  split; [apply dom_singleton_L|]. split; [by apply lookup_singleton_ne|].
  intros key. rewrite lookup_singleton_is_Some. naive_solver.
Qed.

Lemma get_eval_sdk_placeholder_keys_witness :
  exists record : gmap string value,
    snd (get_eval_sdk "missing-123" world_offline) = Ok record
    /\ dom record = ({[ "name" ]} : gset string)
    /\ record !! "id" = None
    /\ forall key, is_Some (record !! key) <-> key = "name".
Proof.
  apply (get_eval_sdk_placeholder_keys world_offline "missing-123" APIConnectionError);
    reflexivity.
Defined.

(** ** Delete and cancel *)

(** C7. Evaluation delete, evaluation-run delete and evaluation-run cancel
    each issue one remote call and return [True] if and only if that call
    does not raise; when it raises an error (an instance of [Exception]) the
    error is caught, a message is printed and [False] is returned. *)
Theorem delete_and_cancel_flags (eval_id run_id : string) :
  success_flag (delete_eval_sdk eval_id)
    (evals_delete_call eval_id) (fun c => evals_delete c eval_id)
  /\ success_flag (delete_eval_run_sdk eval_id run_id)
       (runs_delete_call eval_id run_id) (fun c => runs_delete c eval_id run_id)
  /\ success_flag (cancel_eval_run_sdk eval_id run_id)
       (runs_cancel_call eval_id run_id) (fun c => runs_cancel c eval_id run_id).
Proof.
  rewrite delete_eval_sdk_shape, delete_eval_run_sdk_shape, cancel_eval_run_sdk_shape.
  split; [|split]; apply flag_call_spec.
Qed.

Lemma delete_and_cancel_flags_witness :
  (snd (delete_eval_sdk "eval-1" world_offline) = Ok false
   /\ snd (delete_eval_sdk "eval-1" world_with_a_json) = Ok true)
  /\ (snd (delete_eval_run_sdk "eval-1" "run-1" world_offline) = Ok false
      /\ snd (delete_eval_run_sdk "eval-1" "run-1" world_with_a_json) = Ok true)
  /\ (snd (cancel_eval_run_sdk "eval-1" "run-1" world_offline) = Ok false
      /\ snd (cancel_eval_run_sdk "eval-1" "run-1" world_with_a_json) = Ok true).
Proof.
  destruct (delete_and_cancel_flags "eval-1" "run-1") as (Hdelete & Hdelete_run & Hcancel).
  split; [|split].
  - split.
    + apply (proj2 (proj2 (Hdelete world_offline)) APIConnectionError); reflexivity.
    + apply (proj2 (proj1 (proj2 (Hdelete world_with_a_json)))). eexists. reflexivity.
  - split.
    + apply (proj2 (proj2 (Hdelete_run world_offline)) APIConnectionError); reflexivity.
    + apply (proj2 (proj1 (proj2 (Hdelete_run world_with_a_json)))). eexists. reflexivity.
  - split.
    + apply (proj2 (proj2 (Hcancel world_offline)) APIConnectionError); reflexivity.
    + apply (proj2 (proj1 (proj2 (Hcancel world_with_a_json)))). eexists. reflexivity.
Defined.

(** ** Evaluation runs *)

Lemma create_eval_run_sdk_ok w eval_id name data_source metadata response :
  runs_create (client w) eval_id name (default VNone metadata) data_source = Ok response ->
  create_eval_run_sdk eval_id name data_source metadata w
  = ([Remote (runs_create_call eval_id name (default VNone metadata) data_source);
      Print [Lit "Created evaluation run for "; Fmt (VStr name); Lit ": ";
             Fmt (default (VStr "Unknown ID") (to_dict response !! "id"))]],
     Ok (to_dict response)).
Proof. intros H. unfold create_eval_run_sdk, try_except, bind, await. by rewrite H. Qed.

Lemma create_eval_run_sdk_caught w eval_id name data_source metadata e :
  runs_create (client w) eval_id name (default VNone metadata) data_source = Raise e ->
  exn_is_Exception e = true ->
  create_eval_run_sdk eval_id name data_source metadata w
  = ([Remote (runs_create_call eval_id name (default VNone metadata) data_source);
      Print [Lit "Failed to create evaluation run. Error: "; FmtExn e]],
     Ok ∅).
Proof. intros H He. unfold create_eval_run_sdk, try_except, bind, await. by rewrite H, He. Qed.

(** C9. Evaluation-run create returns the run record of the response, as a
    mapping, when [client.evals.runs.create] succeeds, and the empty mapping
    when it raises an error (an instance of [Exception]); evaluation-run
    retrieve does the same over [client.evals.runs.retrieve].  The metadata
    passed on is [None] when the caller gives none. *)
Theorem run_record_or_empty_mapping
    (w : World) (eval_id name run_id : string) (data_source : value)
    (metadata : option value) :
  (forall response,
     runs_create (client w) eval_id name
       (match metadata with Some given => given | None => VNone end) data_source
     = Ok response ->
     snd (create_eval_run_sdk eval_id name data_source metadata w) = Ok (to_dict response))
  /\ (forall e,
        runs_create (client w) eval_id name
          (match metadata with Some given => given | None => VNone end) data_source
        = Raise e ->
        exn_is_Exception e = true ->
        snd (create_eval_run_sdk eval_id name data_source metadata w) = Ok ∅)
  /\ (forall response,
        runs_retrieve (client w) eval_id run_id = Ok response ->
        snd (get_eval_run_sdk eval_id run_id w) = Ok (to_dict response))
  /\ (forall e,
        runs_retrieve (client w) eval_id run_id = Raise e ->
        exn_is_Exception e = true ->
        snd (get_eval_run_sdk eval_id run_id w) = Ok ∅).
Proof.
  assert (Hmeta : match metadata with Some given => given | None => VNone end
                  = default VNone metadata) by by destruct metadata.
  rewrite Hmeta. repeat split.
  - intros response Hcall. by rewrite (create_eval_run_sdk_ok _ _ _ _ _ _ Hcall).
  - intros e Hcall Hexc. by rewrite (create_eval_run_sdk_caught _ _ _ _ _ _ Hcall Hexc).
  - intros response Hcall. rewrite get_eval_run_sdk_shape.
    by rewrite (guarded_call_ok _ (fun c => runs_retrieve c eval_id run_id) _ _ _ w _ Hcall).
  - intros e Hcall Hexc. rewrite get_eval_run_sdk_shape.
    by rewrite (guarded_call_caught _ (fun c => runs_retrieve c eval_id run_id) _ _ _ w e
                  Hcall Hexc).
Qed.

Lemma run_record_or_empty_mapping_witness :
  (snd (create_eval_run_sdk "eval-1" "nightly" VNone None world_with_a_json)
   = Ok {[ "id" := VStr "run-1" ]}
   /\ snd (create_eval_run_sdk "eval-1" "nightly" VNone None world_offline) = Ok ∅)
  /\ (snd (get_eval_run_sdk "eval-1" "run-7" world_with_a_json) = Ok {[ "id" := VStr "run-7" ]}
      /\ snd (get_eval_run_sdk "eval-1" "run-7" world_offline) = Ok ∅).
Proof.
  destruct (run_record_or_empty_mapping world_with_a_json "eval-1" "nightly" "run-7" VNone None)
    as (Hcreate & _ & Hget & _).
  destruct (run_record_or_empty_mapping world_offline "eval-1" "nightly" "run-7" VNone None)
    as (_ & Hcreate_failed & _ & Hget_failed).
  split; split.
  - exact (Hcreate (mkModel {[ "id" := VStr "run-1" ]}) eq_refl).
  - apply (Hcreate_failed APIConnectionError); reflexivity.
  - exact (Hget (mkModel {[ "id" := VStr "run-7" ]}) eq_refl).
  - apply (Hget_failed APIConnectionError); reflexivity.
Defined.

(** * Further properties of the client *)

(** ** Every run of [upload_file] *)

Lemma upload_file_run w file_name file_path purpose :
  upload_run w file_name file_path purpose (upload_file file_name file_path purpose w).
Proof.
  destruct (files_list (client w)) as [page|e] eqn:Hlist.
  2: { rewrite (upload_list_raises file_name file_path purpose w e Hlist). by constructor. }
  destruct (listing_cases file_name (data page))
    as [Habsent | (pre & file & post & Hdata & Hpre & Hfile)].
  2: { rewrite (upload_existing file_name file_path purpose w page pre file post
                  Hlist Hdata Hpre Hfile).
       by eapply run_existing. }
  destruct (builtin_open w file_path "rb") as [f|e] eqn:Hopen.
  2: { rewrite (upload_open_raises file_name file_path purpose w page Hlist Habsent e Hopen).
       destruct (exn_is_Exception e) eqn:Hexc.
       - by eapply run_open_caught.
       - by eapply run_open_passes. }
  destruct (files_create (client w) f (default "evals" purpose)) as [response|e] eqn:Hcreate.
  - rewrite (upload_created file_name file_path purpose w page Hlist Habsent f response
               Hopen Hcreate).
    by eapply run_created.
  - rewrite (upload_create_raises file_name file_path purpose w page Hlist Habsent f e
               Hopen Hcreate).
    destruct (exn_is_Exception e) eqn:Hexc.
    + by eapply run_create_caught.
    + by eapply run_create_passes.
Qed.

Lemma other_name_unlisted file_name files :
  Forall (other_name file_name) files -> file_name ∉ file_filename <$> files.
Proof.
  intros Hall Hin. apply list_elem_of_fmap in Hin as (g & Heq & Hg).
  rewrite Forall_forall in Hall. by apply (Hall g Hg).
Qed.

(** Case analysis on the path a run of [upload_file] takes. *)
Ltac upload_cases w file_name file_path purpose :=
  destruct (upload_file_run w file_name file_path purpose)
    as [ e' Hlist
       | page pre file post Hlist Hdata Hpre Hfile
       | page e' Hlist Habsent Hopen' Hexc'
       | page e' Hlist Habsent Hopen' Hexc'
       | page f' response Hlist Habsent Hopen' Hcreate'
       | page f' e' Hlist Habsent Hopen' Hcreate' Hexc'
       | page f' e' Hlist Habsent Hopen' Hcreate' Hexc' ].

(** Decides a membership [ev ∈ t] in a trace [t] that is known event by event. *)
Ltac member_cases H :=
  repeat (apply elem_of_cons in H as [H|H]; simplify_eq);
  try (by apply elem_of_nil in H).

(** X1. Whatever the service and the file system answer, a run of
    [upload_file] starts with the [client.files.list()] call; every remote
    call after it is a [client.files.create] call, and there is at most one:
    nothing is listed twice and no upload is tried again. *)
Theorem upload_file_call_budget
    (w : World) (file_name file_path : string) (purpose : option string) :
  exists rest,
    fst (upload_file file_name file_path purpose w) = Remote files_list_call :: rest
    /\ remote_calls rest = creates rest
    /\ create_calls rest <= 1.
Proof.
  upload_cases w file_name file_path purpose;
    simpl; eexists; (split; [reflexivity|]); split; (reflexivity || (cbv; lia)).
Qed.

(** X2. When a run of [upload_file] opens the local file and [open] gives a
    file object, that object is closed right after the [client.files.create]
    call made on it, whether the call returned, raised an error or was
    interrupted; what follows the close holds no remote call. *)
Theorem upload_file_closes_opened_file
    (w : World) (file_name file_path : string) (purpose : option string)
    (path mode : string) (f : BufferedReader) :
  Open path mode ∈ fst (upload_file file_name file_path purpose w) ->
  builtin_open w path mode = Ok f ->
  exists before tag rest,
    fst (upload_file file_name file_path purpose w)
    = before ++ Remote (files_create_call f tag) :: Close f :: rest
    /\ remote_calls rest = [].
Proof.
  intros Hin Hopen.
  upload_cases w file_name file_path purpose; simpl in *;
    member_cases Hin; try congruence.
  all: replace f' with f by congruence.
  all: exists [Remote files_list_call; Open file_path "rb"]; eexists; eexists; by split.
Qed.

Lemma upload_file_closes_opened_file_witness :
  exists before tag rest,
    fst (upload_file "b.json" "/tmp/b.json" None world_cancelled_upload)
    = before ++ Remote (files_create_call (mkReader "/tmp/b.json" []) tag)
             :: Close (mkReader "/tmp/b.json" []) :: rest
    /\ remote_calls rest = [].
Proof.
  apply (upload_file_closes_opened_file world_cancelled_upload "b.json" "/tmp/b.json" None
           "/tmp/b.json" "rb" (mkReader "/tmp/b.json" [])).
  - simpl. right. left.
  - reflexivity.
Defined.

(** X3. When the file name is listed, the whole run of [upload_file] is the
    listing call followed by the reuse message: the local file is never
    opened, and neither the path nor the purpose given changes anything. *)
Theorem upload_file_listed_run
    (w : World) (file_name : string) (page : Page FileObject)
    (path1 path2 : string) (purpose1 purpose2 : option string) :
  files_list (client w) = Ok page ->
  file_name ∈ file_filename <$> data page ->
  fst (upload_file file_name path1 purpose1 w)
  = [Remote files_list_call; Print (reuse_message file_name)]
  /\ upload_file file_name path1 purpose1 w = upload_file file_name path2 purpose2 w.
Proof.
  intros Hlist Hin.
  destruct (first_entry file_name (data page) Hin) as (pre & file & post & Hdata & Hpre & Hfile).
  rewrite (upload_existing file_name path1 purpose1 w page pre file post Hlist Hdata Hpre Hfile).
  rewrite (upload_existing file_name path2 purpose2 w page pre file post Hlist Hdata Hpre Hfile).
  by split.
Qed.

Lemma upload_file_listed_run_witness :
  fst (upload_file "a.json" "/tmp/a.json" None world_with_a_json)
  = [Remote files_list_call; Print (reuse_message "a.json")]
  /\ upload_file "a.json" "/tmp/a.json" None world_with_a_json
     = upload_file "a.json" "/no/such/file" (Some "fine-tune") world_with_a_json.
Proof.
  apply (upload_file_listed_run world_with_a_json "a.json" (mkPage [a_json]));
    [reflexivity | simpl; left].
Defined.

(** X4. A non-empty string returned by [upload_file] is an identifier the
    service gave: either the identifier of a listed entry under the file
    name, or, the name being unlisted, the identifier of the response to
    [client.files.create] on the opened file with the purpose in force. *)
Theorem upload_file_result_origin
    (w : World) (file_name file_path : string) (purpose : option string) (s : string) :
  snd (upload_file file_name file_path purpose w) = Ok s ->
  s <> "" ->
  (exists page file,
     files_list (client w) = Ok page /\ file ∈ data page
     /\ file_filename file = file_name /\ file_id file = s)
  \/ (exists page f response,
        files_list (client w) = Ok page
        /\ (file_name ∉ file_filename <$> data page)
        /\ builtin_open w file_path "rb" = Ok f
        /\ files_create (client w) f
             (match purpose with Some given => given | None => "evals" end) = Ok response
        /\ file_id response = s).
Proof.
  intros Hret Hne.
  assert (Htag : match purpose with Some given => given | None => "evals" end
                 = default "evals" purpose) by by destruct purpose.
  rewrite Htag.
  upload_cases w file_name file_path purpose; simpl in Hret; try discriminate;
    injection Hret as Hs; try (by rewrite Hs in Hne).
  - left. exists page, file. split; [done|]. split; [|done].
    rewrite Hdata. apply elem_of_app. right. by left.
  - right. exists page, f', response.
    split; [done|]. split; [by apply other_name_unlisted | done].
Qed.

Lemma upload_file_result_origin_witness :
  (exists page file,
     files_list (client world_empty_remote) = Ok page /\ file ∈ data page
     /\ file_filename file = "b.json" /\ file_id file = "file-new")
  \/ (exists page f response,
        files_list (client world_empty_remote) = Ok page
        /\ ("b.json" ∉ file_filename <$> data page)
        /\ builtin_open world_empty_remote "/tmp/b.json" "rb" = Ok f
        /\ files_create (client world_empty_remote) f "evals" = Ok response
        /\ file_id response = "file-new").
Proof.
  apply (upload_file_result_origin world_empty_remote "b.json" "/tmp/b.json" None "file-new");
    [reflexivity | discriminate].
Defined.

(** X5. The only instance of [Exception] that can leave [upload_file] is one
    raised by the [client.files.list()] call: when [upload_file] raises such
    an error, the listing raised it and nothing else was done. *)
Theorem upload_file_escaping_exception
    (w : World) (file_name file_path : string) (purpose : option string) (e : PyExn) :
  snd (upload_file file_name file_path purpose w) = Raise e ->
  exn_is_Exception e = true ->
  files_list (client w) = Raise e
  /\ fst (upload_file file_name file_path purpose w) = [Remote files_list_call].
Proof.
  intros Hret Hexc.
  upload_cases w file_name file_path purpose; simpl in Hret; try discriminate;
    injection Hret as He; subst e'; [by split | congruence | congruence].
Qed.

Lemma upload_file_escaping_exception_witness :
  files_list (client world_offline) = Raise APIConnectionError
  /\ fst (upload_file "a.json" "/tmp/a.json" None world_offline) = [Remote files_list_call].
Proof.
  apply (upload_file_escaping_exception world_offline "a.json" "/tmp/a.json" None
           APIConnectionError); reflexivity.
Defined.

(** ** Every run of a one-call method *)

Section OneCallRuns.
Context {R A : Type}.
Variables (c : remote_call) (answer : AsyncOpenAI -> result R).

Lemma guarded_call_never_raises (view : R -> A) failure sentinel :
  never_raises_Exception (guarded_call c answer view failure sentinel).
Proof.
  intros w e. unfold guarded_call, try_except, bind, await, print, ret.
  destruct (answer (client w)) as [r|e0]; simpl; [done|].
  destruct (exn_is_Exception e0) eqn:Hexc; simpl; [done | congruence].
Qed.

Lemma guarded_call_one_call (view : R -> A) failure sentinel :
  one_remote_call (guarded_call c answer view failure sentinel) c.
Proof.
  intros w. unfold guarded_call, try_except, bind, await, print, ret.
  destruct (answer (client w)) as [r|e0]; simpl; [done|].
  by destruct (exn_is_Exception e0).
Qed.

Lemma guarded_call_prints (view : R -> A) failure sentinel :
  (forall e, FmtExn e ∈ failure e) ->
  prints_caught_exception (guarded_call c answer view failure sentinel) answer.
Proof.
  intros Hmsg w e Hcall Hexc.
  rewrite (guarded_call_caught c answer view failure sentinel w e Hcall Hexc).
  by exists [Remote c], (failure e).
Qed.

Lemma flag_call_never_raises success failure :
  never_raises_Exception (flag_call c answer success failure).
Proof.
  intros w e. unfold flag_call, try_except, bind, await, print, ret.
  destruct (answer (client w)) as [r|e0]; simpl; [done|].
  destruct (exn_is_Exception e0) eqn:Hexc; simpl; [done | congruence].
Qed.

Lemma flag_call_prints success failure :
  (forall e, FmtExn e ∈ failure e) ->
  prints_caught_exception (flag_call c answer success failure) answer.
Proof.
  intros Hmsg w e Hcall Hexc. exists [Remote c], (failure e).
  unfold flag_call, try_except, bind, await, print, ret. by rewrite Hcall, Hexc.
Qed.

End OneCallRuns.

Lemma get_eval_run_output_item_sdk_shape eval_id run_id item_id :
  get_eval_run_output_item_sdk eval_id run_id item_id
  = guarded_call (output_items_retrieve_call eval_id run_id item_id)
      (fun c => output_items_retrieve c eval_id run_id item_id) to_dict
      (fun e => [Lit "Failed to fetch output item for evaluation run ID: "; Fmt (VStr run_id);
                 Lit ", item ID: "; Fmt (VStr item_id); Lit ". Error: "; FmtExn e])
      ∅.
Proof. reflexivity. Qed.

(** The paths of [create_eval_sdk]. *)
Section CreateEval.
Variables (w : World) (name : string) (data_source_config testing_criteria : value).

Lemma create_eval_sdk_with_id response eval_id :
  evals_create (client w) name data_source_config testing_criteria = Ok response ->
  to_dict response !! "id" = Some eval_id ->
  create_eval_sdk name data_source_config testing_criteria w
  = ([Remote (evals_create_call name data_source_config testing_criteria);
      Print [Lit "Evaluation created successfully with ID: "; Fmt eval_id]],
     Ok eval_id).
Proof.
  intros Hcall Hid. unfold create_eval_sdk, try_except, bind, await, subscript.
  by rewrite Hcall, Hid.
Qed.

Lemma create_eval_sdk_without_id response :
  evals_create (client w) name data_source_config testing_criteria = Ok response ->
  to_dict response !! "id" = None ->
  create_eval_sdk name data_source_config testing_criteria w
  = ([Remote (evals_create_call name data_source_config testing_criteria);
      Print [Lit "Failed to create evaluation. Error: "; FmtExn (KeyError "id")]],
     Ok VNone).
Proof.
  intros Hcall Hid. unfold create_eval_sdk, try_except, bind, await, subscript.
  by rewrite Hcall, Hid.
Qed.

Lemma create_eval_sdk_caught e :
  evals_create (client w) name data_source_config testing_criteria = Raise e ->
  exn_is_Exception e = true ->
  create_eval_sdk name data_source_config testing_criteria w
  = ([Remote (evals_create_call name data_source_config testing_criteria);
      Print [Lit "Failed to create evaluation. Error: "; FmtExn e]],
     Ok VNone).
Proof.
  intros Hcall Hexc. unfold create_eval_sdk, try_except, bind, await.
  by rewrite Hcall, Hexc.
Qed.

Lemma create_eval_sdk_passes e :
  evals_create (client w) name data_source_config testing_criteria = Raise e ->
  exn_is_Exception e = false ->
  create_eval_sdk name data_source_config testing_criteria w
  = ([Remote (evals_create_call name data_source_config testing_criteria)], Raise e).
Proof.
  intros Hcall Hexc. unfold create_eval_sdk, try_except, bind, await.
  by rewrite Hcall, Hexc.
Qed.

End CreateEval.

(** Case analysis on the path a run of [create_eval_sdk] takes. *)
Ltac create_eval_cases w name data_source_config testing_criteria :=
  let response := fresh "response" in
  let e' := fresh "e'" in
  let v := fresh "v" in
  let Hcall := fresh "Hcall" in
  let Hid := fresh "Hid" in
  let Hexc' := fresh "Hexc'" in
  destruct (evals_create (client w) name data_source_config testing_criteria)
    as [response|e'] eqn:Hcall;
  [ destruct (to_dict response !! "id") as [v|] eqn:Hid;
    [ rewrite (create_eval_sdk_with_id w name data_source_config testing_criteria
                 response v Hcall Hid) in *
    | rewrite (create_eval_sdk_without_id w name data_source_config testing_criteria
                 response Hcall Hid) in * ]
  | destruct (exn_is_Exception e') eqn:Hexc';
    [ rewrite (create_eval_sdk_caught w name data_source_config testing_criteria
                 e' Hcall Hexc') in *
    | rewrite (create_eval_sdk_passes w name data_source_config testing_criteria
                 e' Hcall Hexc') in * ] ].

Lemma create_eval_sdk_never_raises name data_source_config testing_criteria :
  never_raises_Exception (create_eval_sdk name data_source_config testing_criteria).
Proof.
  intros w e Hret. create_eval_cases w name data_source_config testing_criteria;
    simpl in Hret; congruence.
Qed.

Lemma create_eval_run_sdk_passes w eval_id name data_source metadata e :
  runs_create (client w) eval_id name (default VNone metadata) data_source = Raise e ->
  exn_is_Exception e = false ->
  create_eval_run_sdk eval_id name data_source metadata w
  = ([Remote (runs_create_call eval_id name (default VNone metadata) data_source)], Raise e).
Proof. intros H He. unfold create_eval_run_sdk, try_except, bind, await. by rewrite H, He. Qed.

(** Case analysis on the path a run of [create_eval_run_sdk] takes. *)
Ltac create_run_cases w eval_id name data_source metadata :=
  let response := fresh "response" in
  let e' := fresh "e'" in
  let Hcall := fresh "Hcall" in
  let Hexc' := fresh "Hexc'" in
  destruct (runs_create (client w) eval_id name (default VNone metadata) data_source)
    as [response|e'] eqn:Hcall;
  [ rewrite (create_eval_run_sdk_ok w eval_id name data_source metadata response Hcall) in *
  | destruct (exn_is_Exception e') eqn:Hexc';
    [ rewrite (create_eval_run_sdk_caught w eval_id name data_source metadata e'
                 Hcall Hexc') in *
    | rewrite (create_eval_run_sdk_passes w eval_id name data_source metadata e'
                 Hcall Hexc') in * ] ].

(** X6. No instance of [Exception] leaves any of the nine methods that wrap
    their remote call in [try]/[except Exception]: evaluation create,
    retrieve and delete; run create, retrieve, cancel and delete;
    output-items list and output-item retrieve.  What they can raise is only
    what is not an [Exception]. *)
Theorem guarded_methods_never_raise_Exception
    (eval_id run_id item_id name : string)
    (data_source_config testing_criteria data_source : value) (metadata : option value) :
  never_raises_Exception (create_eval_sdk name data_source_config testing_criteria)
  /\ never_raises_Exception (get_eval_sdk eval_id)
  /\ never_raises_Exception (delete_eval_sdk eval_id)
  /\ never_raises_Exception (create_eval_run_sdk eval_id name data_source metadata)
  /\ never_raises_Exception (get_eval_run_sdk eval_id run_id)
  /\ never_raises_Exception (get_eval_run_output_items_sdk eval_id run_id)
  /\ never_raises_Exception (get_eval_run_output_item_sdk eval_id run_id item_id)
  /\ never_raises_Exception (cancel_eval_run_sdk eval_id run_id)
  /\ never_raises_Exception (delete_eval_run_sdk eval_id run_id).
Proof.
  rewrite get_eval_sdk_shape, delete_eval_sdk_shape, get_eval_run_sdk_shape,
    get_eval_run_output_items_sdk_shape, get_eval_run_output_item_sdk_shape,
    cancel_eval_run_sdk_shape, delete_eval_run_sdk_shape.
  split; [apply create_eval_sdk_never_raises|].
  split; [apply guarded_call_never_raises|].
  split; [apply flag_call_never_raises|].
  split.
  { intros w e Hret. create_run_cases w eval_id name data_source metadata;
      simpl in Hret; congruence. }
  split; [apply guarded_call_never_raises|].
  split; [apply guarded_call_never_raises|].
  split; [apply guarded_call_never_raises|].
  split; apply flag_call_never_raises.
Qed.

Lemma guarded_methods_never_raise_Exception_witness :
  snd (get_eval_sdk "eval-1" world_cancelled) = Raise CancelledError
  /\ exn_is_Exception CancelledError = false.
Proof.
  destruct (guarded_methods_never_raise_Exception "eval-1" "run-1" "item-1" "nightly"
              VNone VNone VNone None) as (_ & Hget & _).
  split; [reflexivity|].
  apply (Hget world_cancelled CancelledError). reflexivity.
Defined.

(** X7. Each of the eleven methods other than [upload_file] issues exactly
    one remote call, with the arguments it was given, on every run: when the
    call succeeds, when it raises, and when a response lacks a key.  No call
    is repeated and no second call is made. *)
Theorem one_remote_call_per_method
    (eval_id run_id item_id name : string)
    (data_source_config testing_criteria data_source : value) (metadata : option value) :
  one_remote_call (create_eval_sdk name data_source_config testing_criteria)
    (evals_create_call name data_source_config testing_criteria)
  /\ one_remote_call get_eval_list_sdk evals_list_call
  /\ one_remote_call (get_eval_sdk eval_id) (evals_retrieve_call eval_id)
  /\ one_remote_call (delete_eval_sdk eval_id) (evals_delete_call eval_id)
  /\ one_remote_call (create_eval_run_sdk eval_id name data_source metadata)
       (runs_create_call eval_id name
          (match metadata with Some given => given | None => VNone end) data_source)
  /\ one_remote_call (get_eval_run_list_sdk eval_id) (runs_list_call eval_id)
  /\ one_remote_call (get_eval_run_sdk eval_id run_id) (runs_retrieve_call eval_id run_id)
  /\ one_remote_call (get_eval_run_output_items_sdk eval_id run_id)
       (output_items_list_call eval_id run_id)
  /\ one_remote_call (get_eval_run_output_item_sdk eval_id run_id item_id)
       (output_items_retrieve_call eval_id run_id item_id)
  /\ one_remote_call (cancel_eval_run_sdk eval_id run_id) (runs_cancel_call eval_id run_id)
  /\ one_remote_call (delete_eval_run_sdk eval_id run_id) (runs_delete_call eval_id run_id).
Proof.
  assert (Hmeta : match metadata with Some given => given | None => VNone end
                  = default VNone metadata) by by destruct metadata.
  rewrite Hmeta.
  rewrite get_eval_sdk_shape, delete_eval_sdk_shape, get_eval_run_sdk_shape,
    get_eval_run_output_items_sdk_shape, get_eval_run_output_item_sdk_shape,
    cancel_eval_run_sdk_shape, delete_eval_run_sdk_shape.
  split.
  { intros w. by create_eval_cases w name data_source_config testing_criteria. }
  split.
  { intros w. unfold get_eval_list_sdk, bind, await, print, ret.
    by destruct (evals_list (client w)). }
  split; [apply guarded_call_one_call|].
  split; [intros w; apply (flag_call_spec _ _ _ _ w)|].
  split.
  { intros w. by create_run_cases w eval_id name data_source metadata. }
  split.
  { intros w. unfold get_eval_run_list_sdk, bind, await, ret.
    by destruct (runs_list (client w) eval_id). }
  split; [apply guarded_call_one_call|].
  split; [apply guarded_call_one_call|].
  split; [apply guarded_call_one_call|].
  split; intros w; apply (flag_call_spec _ _ _ _ w).
Qed.

(** X8. Every failure a guarded method swallows is printed: when the remote
    call of one of the nine methods with a handler raises an error (an
    instance of [Exception]), the last event of the run is a [print] whose
    message carries that exception. *)
Theorem caught_failures_are_printed
    (eval_id run_id item_id name : string)
    (data_source_config testing_criteria data_source : value) (metadata : option value) :
  prints_caught_exception (create_eval_sdk name data_source_config testing_criteria)
    (fun c => evals_create c name data_source_config testing_criteria)
  /\ prints_caught_exception (get_eval_sdk eval_id) (fun c => evals_retrieve c eval_id)
  /\ prints_caught_exception (delete_eval_sdk eval_id) (fun c => evals_delete c eval_id)
  /\ prints_caught_exception (create_eval_run_sdk eval_id name data_source metadata)
       (fun c => runs_create c eval_id name
                   (match metadata with Some given => given | None => VNone end) data_source)
  /\ prints_caught_exception (get_eval_run_sdk eval_id run_id)
       (fun c => runs_retrieve c eval_id run_id)
  /\ prints_caught_exception (get_eval_run_output_items_sdk eval_id run_id)
       (fun c => output_items_list c eval_id run_id)
  /\ prints_caught_exception (get_eval_run_output_item_sdk eval_id run_id item_id)
       (fun c => output_items_retrieve c eval_id run_id item_id)
  /\ prints_caught_exception (cancel_eval_run_sdk eval_id run_id)
       (fun c => runs_cancel c eval_id run_id)
  /\ prints_caught_exception (delete_eval_run_sdk eval_id run_id)
       (fun c => runs_delete c eval_id run_id).
Proof.
  assert (Hmeta : match metadata with Some given => given | None => VNone end
                  = default VNone metadata) by by destruct metadata.
  rewrite Hmeta.
  rewrite get_eval_sdk_shape, delete_eval_sdk_shape, get_eval_run_sdk_shape,
    get_eval_run_output_items_sdk_shape, get_eval_run_output_item_sdk_shape,
    cancel_eval_run_sdk_shape, delete_eval_run_sdk_shape.
  assert (Hlast : forall (e : PyExn) (pre : list fpart), FmtExn e ∈ pre ++ [FmtExn e]).
  { intros e pre. apply elem_of_app. right. by left. }
  split.
  { intros w e Hcall Hexc.
    rewrite (create_eval_sdk_caught w name data_source_config testing_criteria e Hcall Hexc).
    eexists [_], _. split; [reflexivity|]. apply (Hlast e [_]). }
  split; [apply guarded_call_prints; intros e; apply (Hlast e [_; _; _])|].
  split; [apply flag_call_prints; intros e; apply (Hlast e [_; _; _])|].
  split.
  { intros w e Hcall Hexc.
    rewrite (create_eval_run_sdk_caught w eval_id name data_source metadata e Hcall Hexc).
    eexists [_], _. split; [reflexivity|]. apply (Hlast e [_]). }
  split; [apply guarded_call_prints; intros e; apply (Hlast e [_; _; _])|].
  split; [apply guarded_call_prints; intros e; apply (Hlast e [_; _; _])|].
  split; [apply guarded_call_prints; intros e; apply (Hlast e [_; _; _; _; _])|].
  split; apply flag_call_prints; intros e; apply (Hlast e [_; _; _]).
Qed.

Lemma caught_failures_are_printed_witness :
  exists t msg,
    fst (create_eval_sdk "nightly" VNone VNone world_offline) = t ++ [Print msg]
    /\ FmtExn APIConnectionError ∈ msg.
Proof.
  destruct (caught_failures_are_printed "eval-1" "run-1" "item-1" "nightly"
              VNone VNone VNone None) as (Hcreate & _).
  apply (Hcreate world_offline APIConnectionError); reflexivity.
Defined.

(** ** Evaluation create *)

(** X9. When [client.evals.create] succeeds but the response record has no
    ["id"], the subscript raises [KeyError('id')] inside the [try] block:
    [create_eval_sdk] prints a creation failure carrying that [KeyError] and
    returns [None], although the remote call went through and is not undone. *)
Theorem create_eval_sdk_response_without_id
    (w : World) (name : string) (data_source_config testing_criteria : value)
    (response : BaseModel) :
  evals_create (client w) name data_source_config testing_criteria = Ok response ->
  to_dict response !! "id" = None ->
  create_eval_sdk name data_source_config testing_criteria w
  = ([Remote (evals_create_call name data_source_config testing_criteria);
      Print [Lit "Failed to create evaluation. Error: "; FmtExn (mkExn true "'id'")]],
     Ok VNone).
Proof. apply create_eval_sdk_without_id. Qed.

Lemma create_eval_sdk_response_without_id_witness :
  create_eval_sdk "nightly" VNone VNone world_without_id
  = ([Remote (evals_create_call "nightly" VNone VNone);
      Print [Lit "Failed to create evaluation. Error: "; FmtExn (mkExn true "'id'")]],
     Ok VNone).
Proof.
  exact (create_eval_sdk_response_without_id world_without_id "nightly" VNone VNone
           (mkModel {[ "status" := VStr "ok" ]}) eq_refl eq_refl).
Defined.

(** X10. [create_eval_sdk] returns a value other than [None] exactly when
    [client.evals.create] succeeded and that value is the ["id"] of the
    response record; in every other run that returns, the value is [None]. *)
Theorem create_eval_sdk_result_origin
    (w : World) (name : string) (data_source_config testing_criteria : value) (v : value) :
  v <> VNone ->
  (snd (create_eval_sdk name data_source_config testing_criteria w) = Ok v
   <-> exists response,
         evals_create (client w) name data_source_config testing_criteria = Ok response
         /\ to_dict response !! "id" = Some v).
Proof.
  intros Hv. split.
  - intros Hret. create_eval_cases w name data_source_config testing_criteria;
      simpl in Hret; try congruence.
    exists response. split; [done | congruence].
  - intros (response & Hcall & Hid).
    by rewrite (create_eval_sdk_with_id w name data_source_config testing_criteria
                  response v Hcall Hid).
Qed.

Lemma create_eval_sdk_result_origin_witness :
  snd (create_eval_sdk "nightly" VNone VNone world_with_a_json) = Ok (VStr "eval-1")
  <-> exists response,
        evals_create (client world_with_a_json) "nightly" VNone VNone = Ok response
        /\ to_dict response !! "id" = Some (VStr "eval-1").
Proof.
  apply (create_eval_sdk_result_origin world_with_a_json "nightly" VNone VNone (VStr "eval-1")).
  discriminate.
Defined.

(** ** Evaluation runs and output items *)

(** X11. [create_eval_run_sdk] does not need an ["id"] in the response: when
    [client.evals.runs.create] succeeds with a record that has none, the
    message names the run ["Unknown ID"] and the record is returned as it
    is. *)
Theorem create_eval_run_sdk_response_without_id
    (w : World) (eval_id name : string) (data_source : value) (metadata : option value)
    (response : BaseModel) :
  runs_create (client w) eval_id name
    (match metadata with Some given => given | None => VNone end) data_source = Ok response ->
  to_dict response !! "id" = None ->
  create_eval_run_sdk eval_id name data_source metadata w
  = ([Remote (runs_create_call eval_id name
                (match metadata with Some given => given | None => VNone end) data_source);
      Print [Lit "Created evaluation run for "; Fmt (VStr name); Lit ": ";
             Fmt (VStr "Unknown ID")]],
     Ok (to_dict response)).
Proof.
  assert (Hmeta : match metadata with Some given => given | None => VNone end
                  = default VNone metadata) by by destruct metadata.
  rewrite Hmeta. intros Hcall Hid.
  rewrite (create_eval_run_sdk_ok w eval_id name data_source metadata response Hcall).
  by rewrite Hid.
Qed.

Lemma create_eval_run_sdk_response_without_id_witness :
  create_eval_run_sdk "eval-1" "nightly" VNone None world_without_id
  = ([Remote (runs_create_call "eval-1" "nightly" VNone VNone);
      Print [Lit "Created evaluation run for "; Fmt (VStr "nightly"); Lit ": ";
             Fmt (VStr "Unknown ID")]],
     Ok {[ "status" := VStr "queued" ]}).
Proof.
  exact (create_eval_run_sdk_response_without_id world_without_id "eval-1" "nightly" VNone None
           (mkModel {[ "status" := VStr "queued" ]}) eq_refl eq_refl).
Defined.

(** X12. [get_eval_run_output_item_sdk] returns the record of the response,
    printing nothing, when [client.evals.runs.output_items.retrieve]
    succeeds, and prints the failure and returns the empty mapping when the
    call raises an error (an instance of [Exception]). *)
Theorem output_item_record_or_empty_mapping
    (w : World) (eval_id run_id item_id : string) :
  (forall response,
     output_items_retrieve (client w) eval_id run_id item_id = Ok response ->
     get_eval_run_output_item_sdk eval_id run_id item_id w
     = ([Remote (output_items_retrieve_call eval_id run_id item_id)], Ok (to_dict response)))
  /\ (forall e,
        output_items_retrieve (client w) eval_id run_id item_id = Raise e ->
        exn_is_Exception e = true ->
        exists msg,
          get_eval_run_output_item_sdk eval_id run_id item_id w
          = ([Remote (output_items_retrieve_call eval_id run_id item_id); Print msg], Ok ∅)).
Proof.
  rewrite get_eval_run_output_item_sdk_shape. split.
  - intros response Hcall. by apply guarded_call_ok.
  - intros e Hcall Hexc. eexists. by apply guarded_call_caught.
Qed.

Lemma output_item_record_or_empty_mapping_witness :
  get_eval_run_output_item_sdk "eval-1" "run-1" "item-9" world_with_a_json
  = ([Remote (output_items_retrieve_call "eval-1" "run-1" "item-9")],
     Ok {[ "id" := VStr "item-9" ]})
  /\ exists msg,
       get_eval_run_output_item_sdk "eval-1" "run-1" "item-9" world_offline
       = ([Remote (output_items_retrieve_call "eval-1" "run-1" "item-9"); Print msg], Ok ∅).
Proof.
  split.
  - exact (proj1 (output_item_record_or_empty_mapping world_with_a_json
                    "eval-1" "run-1" "item-9")
             (mkModel {[ "id" := VStr "item-9" ]}) eq_refl).
  - exact (proj2 (output_item_record_or_empty_mapping world_offline "eval-1" "run-1" "item-9")
             APIConnectionError eq_refl eq_refl).
Defined.

(** ** Listing and retrieval on success *)

(** X13. When their remote call succeeds, the three listing methods return
    the [data] of the response as it came, same records in the same order;
    the evaluation list prints that it fetched them, the run list and the
    output-items list print nothing. *)
Theorem listings_return_response_data
    (w : World) (eval_id run_id : string) (page : Page BaseModel) :
  (evals_list (client w) = Ok page ->
   get_eval_list_sdk w
   = ([Remote evals_list_call; Print [Lit "Fetched evaluations successfully."]],
      Ok (data page)))
  /\ (runs_list (client w) eval_id = Ok page ->
      get_eval_run_list_sdk eval_id w = ([Remote (runs_list_call eval_id)], Ok (data page)))
  /\ (output_items_list (client w) eval_id run_id = Ok page ->
      get_eval_run_output_items_sdk eval_id run_id w
      = ([Remote (output_items_list_call eval_id run_id)], Ok (data page))).
Proof.
  split; [|split].
  - intros Hcall. unfold get_eval_list_sdk, bind, await. by rewrite Hcall.
  - intros Hcall. unfold get_eval_run_list_sdk, bind, await. by rewrite Hcall.
  - intros Hcall. rewrite get_eval_run_output_items_sdk_shape.
    by apply (guarded_call_ok _ (fun c => output_items_list c eval_id run_id)).
Qed.

Lemma listings_return_response_data_witness :
  get_eval_list_sdk world_with_a_json
  = ([Remote evals_list_call; Print [Lit "Fetched evaluations successfully."]],
     Ok [mkModel {[ "id" := VStr "eval-1" ]}])
  /\ get_eval_run_list_sdk "eval-1" world_with_a_json
     = ([Remote (runs_list_call "eval-1")], Ok [mkModel {[ "id" := VStr "run-1" ]}]).
Proof.
  split.
  - exact (proj1 (listings_return_response_data world_with_a_json "eval-1" "run-1"
                    (mkPage [mkModel {[ "id" := VStr "eval-1" ]}])) eq_refl).
  - exact (proj1 (proj2 (listings_return_response_data world_with_a_json "eval-1" "run-1"
                           (mkPage [mkModel {[ "id" := VStr "run-1" ]}]))) eq_refl).
Defined.

(** X14. When [client.evals.retrieve] succeeds, [get_eval_sdk] prints nothing
    and returns the record of the response untouched: the placeholder name
    is for failures only, and a response without a ["name"] gives a record
    without one. *)
Theorem get_eval_sdk_returns_response_record
    (w : World) (eval_id : string) (response : BaseModel) :
  evals_retrieve (client w) eval_id = Ok response ->
  get_eval_sdk eval_id w = ([Remote (evals_retrieve_call eval_id)], Ok (to_dict response))
  /\ (to_dict response !! "name" = None ->
      exists record : gmap string value,
        snd (get_eval_sdk eval_id w) = Ok record /\ record !! "name" = None).
Proof.
  intros Hcall. rewrite get_eval_sdk_shape.
  rewrite (guarded_call_ok _ (fun c => evals_retrieve c eval_id) _ _ _ w response Hcall).
  split; [done|]. intros Hname. by exists (to_dict response).
Qed.

Lemma get_eval_sdk_returns_response_record_witness :
  get_eval_sdk "eval-7" world_with_a_json
  = ([Remote (evals_retrieve_call "eval-7")], Ok {[ "id" := VStr "eval-7" ]})
  /\ (({[ "id" := VStr "eval-7" ]} : gmap string value) !! "name" = None ->
      exists record : gmap string value,
        snd (get_eval_sdk "eval-7" world_with_a_json) = Ok record /\ record !! "name" = None).
Proof.
  exact (get_eval_sdk_returns_response_record world_with_a_json "eval-7"
           (mkModel {[ "id" := VStr "eval-7" ]}) eq_refl).
Defined.

(** ** Settings and construction *)

Lemma string_app_assoc (a b c : string) : (a +:+ b) +:+ c = a +:+ (b +:+ c).
Proof.
  induction a as [|ch a IH]; [reflexivity|].
  change (String ch ((a +:+ b) +:+ c) = String ch (a +:+ (b +:+ c))). by rewrite IH.
Qed.

Lemma init_openai s :
  Settings.OAI_API_TYPE s = "openai" ->
  init s = {| base_url := Settings.OPENAI_API_BASE s;
              api_key := Settings.OPENAI_API_KEY s;
              default_query := None |}.
Proof. intros H. unfold init. by rewrite H. Qed.

Lemma init_azure s :
  Settings.OAI_API_TYPE s <> "openai" ->
  init s = {| base_url := Settings.AZURE_API_ENDPOINT s;
              api_key := Settings.AZURE_API_KEY s;
              default_query := Some {[ "aoai-evals" := "preview" ]} |}.
Proof.
  intros H. unfold init.
  by destruct (String.eqb_spec (Settings.OAI_API_TYPE s) "openai").
Qed.

(** X15. The three choices of [__init__] always go together: with
    [OAI_API_TYPE] equal to ["openai"] the client gets the OpenAI base URL,
    the OpenAI key and no default query; with any other value it gets the
    Azure endpoint, the Azure key and the query [{"aoai-evals": "preview"}].
    No setting yields a mix of the two. *)
Theorem init_arguments_go_together (s : Settings.t) :
  (Settings.OAI_API_TYPE s = "openai"
   /\ init s = {| base_url := Settings.OPENAI_API_BASE s;
                  api_key := Settings.OPENAI_API_KEY s;
                  default_query := None |})
  \/ (Settings.OAI_API_TYPE s <> "openai"
      /\ init s = {| base_url := Settings.AZURE_API_ENDPOINT s;
                     api_key := Settings.AZURE_API_KEY s;
                     default_query := Some {[ "aoai-evals" := "preview" ]} |}).
Proof.
  destruct (decide (Settings.OAI_API_TYPE s = "openai")) as [Heq|Hne].
  - left. split; [done | by apply init_openai].
  - right. split; [done | by apply init_azure].
Qed.

(** X16. With no [OAI_API_TYPE] in the environment the client is built for
    Azure: the base URL is the [AZURE_API_ENDPOINT] of the environment (the
    empty string when unset) followed by ["/openai/v1"], the key is
    [AZURE_API_KEY] ([None] when unset), and the Azure query is attached. *)
Theorem unset_provider_selects_azure (environ : gmap string string) :
  environ !! "OAI_API_TYPE" = None ->
  init (load_settings environ)
  = {| base_url := default "" (environ !! "AZURE_API_ENDPOINT") +:+ "/openai/v1";
       api_key := environ !! "AZURE_API_KEY";
       default_query := Some {[ "aoai-evals" := "preview" ]} |}.
Proof.
  intros Hunset. rewrite init_azure; [done|].
  unfold load_settings, getenv. simpl. rewrite Hunset. simpl. discriminate.
Qed.

Lemma unset_provider_selects_azure_witness :
  init (load_settings {[ "AZURE_API_ENDPOINT" := "https://x.openai.azure.com" ]})
  = {| base_url := "https://x.openai.azure.com/openai/v1";
       api_key := None;
       default_query := Some {[ "aoai-evals" := "preview" ]} |}.
Proof.
  exact (unset_provider_selects_azure
           {[ "AZURE_API_ENDPOINT" := "https://x.openai.azure.com" ]} eq_refl).
Defined.

(** X17. Whatever the environment holds, the base URL the client is built
    with ends in ["/v1"]. *)
Theorem base_url_ends_with_v1 (environ : gmap string string) :
  exists prefix, base_url (init (load_settings environ)) = prefix +:+ "/v1".
Proof.
  destruct (decide (Settings.OAI_API_TYPE (load_settings environ) = "openai")) as [Heq|Hne];
    [rewrite (init_openai _ Heq) | rewrite (init_azure _ Hne)]; simpl.
  - by eexists.
  - exists (getenv environ "AZURE_API_ENDPOINT" "" +:+ "/openai").
    by rewrite string_app_assoc.
Qed.

(** X18. A missing endpoint is no error when the settings are loaded or the
    client is built: with neither [AZURE_API_ENDPOINT] nor [OPENAI_API_BASE]
    in the environment, the base URL is the bare path ["/openai/v1"] (Azure)
    or ["/v1"] (OpenAI), with no host in front. *)
Theorem missing_endpoint_gives_bare_path (environ : gmap string string) :
  environ !! "AZURE_API_ENDPOINT" = None ->
  environ !! "OPENAI_API_BASE" = None ->
  base_url (init (load_settings environ))
  = if String.eqb (Settings.OAI_API_TYPE (load_settings environ)) "openai"
    then "/v1" else "/openai/v1".
Proof.
  intros Hazure Hopenai. unfold init, load_settings, getenv. simpl.
  rewrite Hazure, Hopenai. simpl.
  by destruct (String.eqb _ "openai").
Qed.

Lemma missing_endpoint_gives_bare_path_witness :
  base_url (init (load_settings ∅)) = "/openai/v1"
  /\ base_url (init (load_settings {[ "OAI_API_TYPE" := "openai" ]})) = "/v1".
Proof.
  split.
  - exact (missing_endpoint_gives_bare_path ∅ eq_refl eq_refl).
  - exact (missing_endpoint_gives_bare_path {[ "OAI_API_TYPE" := "openai" ]} eq_refl eq_refl).
Defined.

(** X19. The provider is chosen by the lower-cased [OAI_API_TYPE] alone: for
    an ASCII value [s] of that variable, the client is built for OpenAI (no
    default query, OpenAI base and key) exactly when [s.lower()] is
    ["openai"], so ["OpenAI"] and ["OPENAI"] select it; any other value,
    the empty string and misspellings included, silently selects Azure. *)
Theorem provider_chosen_by_lowercased_name (environ : gmap string string) (s : string) :
  environ !! "OAI_API_TYPE" = Some s ->
  is_ascii_text s ->
  (lower s = "openai" ->
   init (load_settings environ)
   = {| base_url := default "" (environ !! "OPENAI_API_BASE") +:+ "/v1";
        api_key := environ !! "OPENAI_API_KEY";
        default_query := None |})
  /\ (lower s <> "openai" ->
      init (load_settings environ)
      = {| base_url := default "" (environ !! "AZURE_API_ENDPOINT") +:+ "/openai/v1";
           api_key := environ !! "AZURE_API_KEY";
           default_query := Some {[ "aoai-evals" := "preview" ]} |}).
Proof.
  intros Hset _.
  assert (Htype : Settings.OAI_API_TYPE (load_settings environ) = lower s).
  { unfold load_settings, getenv. simpl. by rewrite Hset. }
  split; intros Hlower.
  - rewrite init_openai; [done | congruence].
  - rewrite init_azure; [done | congruence].
Qed.

Lemma provider_chosen_by_lowercased_name_witness :
  init (load_settings {[ "OAI_API_TYPE" := "OpenAI" ]})
  = {| base_url := "/v1"; api_key := None; default_query := None |}
  /\ init (load_settings {[ "OAI_API_TYPE" := "open-ai" ]})
     = {| base_url := "/openai/v1"; api_key := None;
          default_query := Some {[ "aoai-evals" := "preview" ]} |}.
Proof.
  split.
  - refine (proj1 (provider_chosen_by_lowercased_name
                     {[ "OAI_API_TYPE" := "OpenAI" ]} "OpenAI" eq_refl _) eq_refl).
    repeat constructor.
  - refine (proj2 (provider_chosen_by_lowercased_name
                     {[ "OAI_API_TYPE" := "open-ai" ]} "open-ai" eq_refl _) _).
    + repeat constructor.
    + discriminate.
Defined.

(** X20. The messages of [upload_file] name the provider the client was built
    for: when the module-level [OAI_API_TYPE] the method reads is the one
    [__init__] read, the upload messages say ["OpenAI"] exactly when
    [__init__] attached no Azure query, and ["Azure"] otherwise. *)
Theorem upload_messages_name_configured_provider (s : Settings.t) (w : World) :
  OAI_API_TYPE w = Settings.OAI_API_TYPE s ->
  (default_query (init s) = None /\ provider_name w = "OpenAI")
  \/ (default_query (init s) = Some {[ "aoai-evals" := "preview" ]}
      /\ provider_name w = "Azure").
Proof.
  intros Hsame. unfold provider_name, init. rewrite Hsame. simpl.
  destruct (String.eqb _ "openai"); simpl; [by left | by right].
Qed.

Lemma upload_messages_name_configured_provider_witness :
  (default_query (init (load_settings {[ "OAI_API_TYPE" := "OpenAI" ]})) = None
   /\ provider_name world_offline = "OpenAI")
  \/ (default_query (init (load_settings {[ "OAI_API_TYPE" := "OpenAI" ]}))
      = Some {[ "aoai-evals" := "preview" ]}
      /\ provider_name world_offline = "Azure").
Proof.
  exact (upload_messages_name_configured_provider
           (load_settings {[ "OAI_API_TYPE" := "OpenAI" ]}) world_offline eq_refl).
Defined.
